(** * Pattern-first agents: matcher, validator, codec and dispatch

    A shallow embedding of [.ai/agents/base_agent.py], the two concrete
    agents and [.ai/orchestrator.py], with the properties of the pattern
    library proved over it.

    Text model.  A Python [str] is a [string]; its characters are the code
    points below 256 (Latin-1), so the character classes below are the ones
    Python uses on that range, where [str.lower] maps each character on its
    own.  Beyond that range [str.lower] looks at the neighbours of a
    character (the final sigma); what is proved for every task uses of
    [lower] only that applying it twice is applying it once.  Scores are exact
    rationals: the Python floats [len(common) / max(..)] and [0.3] compare
    the same way as the rationals they round as long as a label has fewer
    than 2^26 words.

    File model.  A file holds the text [write_text] stored in it, and
    [read_text] reads it in text mode, with universal newlines. *)

From Stdlib Require Import Bool Arith List Lia ZArith QArith Lqa.
From Stdlib Require Import Sorting.Sorted Sorting.Permutation.
From Stdlib Require Import Strings.Ascii Strings.String DecimalString.
Import ListNotations.

Close Scope Q_scope.
Open Scope list_scope.
Open Scope string_scope.
Open Scope nat_scope.

(** ** Python [str] builtins *)

Module Py.

(** [c.isspace()] on code points below 256. *)
Definition isspace (c : ascii) : bool :=
  let n := nat_of_ascii c in
  ((9 <=? n) && (n <=? 13)) || ((28 <=? n) && (n <=? 32))
  || (n =? 133) || (n =? 160).

(** [c.isalnum() or c == '_'], the class [\w] of [re] on [str] patterns. *)
Definition isword (c : ascii) : bool :=
  let n := nat_of_ascii c in
  ((48 <=? n) && (n <=? 57)) || ((65 <=? n) && (n <=? 90))
  || ((97 <=? n) && (n <=? 122)) || (n =? 95)
  || (n =? 170) || (n =? 178) || (n =? 179) || (n =? 181)
  || (n =? 185) || (n =? 186) || ((188 <=? n) && (n <=? 190))
  || ((192 <=? n) && (n <=? 214)) || ((216 <=? n) && (n <=? 246))
  || (248 <=? n).

Definition lower_char (c : ascii) : ascii :=
  let n := nat_of_ascii c in
  if ((65 <=? n) && (n <=? 90))
     || ((192 <=? n) && (n <=? 222) && negb (n =? 215))
  then ascii_of_nat (n + 32) else c.

(** [s.lower()] on code points below 256, one character at a time. *)
Fixpoint lower (s : string) : string :=
  match s with
  | EmptyString => EmptyString
  | String c r => String (lower_char c) (lower r)
  end.

(** [s.split()]: maximal runs of non-space characters, in order. *)
Fixpoint split_from (cur : string) (s : string) : list string :=
  match s with
  | EmptyString => match cur with EmptyString => [] | _ => [cur] end
  | String c r =>
      if isspace c
      then match cur with
           | EmptyString => split_from EmptyString r
           | _ => cur :: split_from EmptyString r
           end
      else split_from (cur ++ String c EmptyString) r
  end.

Definition split (s : string) : list string := split_from EmptyString s.

(** [s.startswith(p)] *)
Fixpoint startswith (p s : string) : bool :=
  match p, s with
  | EmptyString, _ => true
  | String _ _, EmptyString => false
  | String a p', String b s' => Ascii.eqb a b && startswith p' s'
  end.

(** [s.find(sub)], with [None] for Python's [-1]. *)
Fixpoint find (sub s : string) : option nat :=
  if startswith sub s then Some 0
  else match s with
       | EmptyString => None
       | String _ r => option_map S (find sub r)
       end.

(** [sub in s] *)
Definition contains (sub s : string) : bool :=
  match find sub s with Some _ => true | None => false end.

(** [s[n:]] and [s[:n]] for [0 <= n]. *)
Fixpoint drop (n : nat) (s : string) : string :=
  match n, s with
  | O, _ => s
  | S _, EmptyString => EmptyString
  | S k, String _ r => drop k r
  end.

Fixpoint take (n : nat) (s : string) : string :=
  match n, s with
  | O, _ => EmptyString
  | S _, EmptyString => EmptyString
  | S k, String c r => String c (take k r)
  end.

(** [s.find(sub, start)] for [0 <= start]: Python answers [-1] when
    [start] is past the end, also for an empty [sub]. *)
Definition find_from (sub s : string) (start : nat) : option nat :=
  if String.length s <? start then None
  else option_map (Nat.add start) (find sub (drop start s)).

(** [s[i:j]] for [0 <= i], [0 <= j]. *)
Definition slice (i j : nat) (s : string) : string := take (j - i) (drop i s).

Fixpoint lstrip (s : string) : string :=
  match s with
  | EmptyString => EmptyString
  | String c r => if isspace c then lstrip r else s
  end.

Fixpoint rstrip (s : string) : string :=
  match s with
  | EmptyString => EmptyString
  | String c r =>
      match rstrip r with
      | EmptyString => if isspace c then EmptyString else String c EmptyString
      | r' => String c r'
      end
  end.

(** [s.strip()] *)
Definition strip (s : string) : string := rstrip (lstrip s).

(** Membership of a character, and of a word in a list of words. *)
Fixpoint has_char (c : ascii) (s : string) : bool :=
  match s with
  | EmptyString => false
  | String a r => Ascii.eqb a c || has_char c r
  end.

Definition mem (w : string) (l : list string) : bool :=
  existsb (String.eqb w) l.

(** [set(l)]: the distinct elements, and [a & b] on such sets. *)
Fixpoint distinct (l : list string) : list string :=
  match l with
  | [] => []
  | w :: r => if mem w r then distinct r else w :: distinct r
  end.

Definition inter (a b : list string) : list string :=
  filter (fun w => mem w b) a.

End Py.

(** ** Data model *)

(** The values [yaml.safe_load] builds (floats and dates left out), with
    string keys in mappings.  A mapping is a Python [dict]: an association
    list in insertion order, one entry per key. *)
#[warnings="-register-all"] Inductive yaml : Type :=
| YNull
| YBool (b : bool)
| YInt (n : Z)
| YStr (s : string)
| YSeq (items : list yaml)
| YMap (entries : list (string * yaml)).

Definition Mapping : Type := list (string * yaml).

(** [m.get(k)] *)
Fixpoint dict_get (k : string) (m : Mapping) : option yaml :=
  match m with
  | [] => None
  | (k', v) :: r => if String.eqb k k' then Some v else dict_get k r
  end.

(** [k in m] *)
Definition dict_has (k : string) (m : Mapping) : bool :=
  match dict_get k m with Some _ => true | None => false end.

(** [m[k] = v]: an existing key keeps its place, a new one goes last. *)
Fixpoint dict_set (k : string) (v : yaml) (m : Mapping) : Mapping :=
  match m with
  | [] => [(k, v)]
  | (k', v') :: r =>
      if String.eqb k k' then (k', v) :: r else (k', v') :: dict_set k v r
  end.

(** [type(v).__name__], as Python's error messages print it. *)
Definition type_name (v : yaml) : string :=
  match v with
  | YNull => "NoneType"
  | YBool _ => "bool"
  | YInt _ => "int"
  | YStr _ => "str"
  | YSeq _ => "list"
  | YMap _ => "dict"
  end.

(** Exceptions, with the text [str(e)] gives. *)
Inductive exn_class : Type :=
| NotImplementedError | ValueError | AttributeError | TypeError | YAMLError
| FileNotFoundError.

Record exn : Type := Exn { exn_kind : exn_class; exn_str : string }.

Inductive outcome (A : Type) : Type :=
| Returned (a : A)
| Raised (e : exn).
Arguments Returned {A} a.
Arguments Raised {A} e.

Definition bind {A B : Type} (x : outcome A) (f : A -> outcome B) : outcome B :=
  match x with
  | Returned a => f a
  | Raised e => Raised e
  end.

Notation "x <- c ;; k" := (bind c (fun x => k))
  (at level 61, c at next level, right associativity).

(** A pattern is a [dict] read through [get] with defaults: a record of
    optional entries.  [M] is what the ["metadata"] entry holds: the mapping
    itself for a pattern taken by value, an address for a pattern whose
    metadata [dict] lives in the heap and is shared with the caller. *)
Record PatternOf (M : Type) : Type := mkPattern {
  metadata : option M;
  description : option string;
  code : option string;
  setup : option string;
  usage : option string;
  notes : option string;
  language : option yaml
}.
Arguments mkPattern {M}.
Arguments metadata {M}.
Arguments description {M}.
Arguments code {M}.
Arguments setup {M}.
Arguments usage {M}.
Arguments notes {M}.
Arguments language {M}.

Definition Pattern : Type := PatternOf Mapping.
Definition PatternObj : Type := PatternOf nat.

(** The empty [dict] [{}]. *)
Definition empty_pattern {M : Type} : PatternOf M :=
  mkPattern None None None None None None None.

(** [bool(pattern)]: a [dict] is true when it has an entry. *)
Definition truthy {M : Type} (p : PatternOf M) : bool :=
  match metadata p, description p, code p, setup p, usage p, notes p,
        language p with
  | None, None, None, None, None, None, None => false
  | _, _, _, _, _, _, _ => true
  end.

(** [pattern.get('metadata', {})] *)
Definition metadata_of (p : Pattern) : Mapping :=
  match metadata p with Some m => m | None => [] end.

(** ** Pattern matcher: [find_pattern] *)

Definition no_attribute (v : yaml) (attr : string) : exn :=
  Exn AttributeError
      ("'" ++ type_name v ++ "' object has no attribute '" ++ attr ++ "'").

(** [pattern.get('metadata', {}).get('task', '').lower()] *)
Definition pattern_task (p : Pattern) : outcome string :=
  match dict_get "task" (metadata_of p) with
  | None => Returned (Py.lower "")
  | Some (YStr s) => Returned (Py.lower s)
  | Some v => Raised (no_attribute v "lower")
  end.

(** [set(s.split())] *)
Definition words (s : string) : list string := Py.distinct (Py.split s).

Definition threshold : Q := 3 # 10.

Definition Qltb (a b : Q) : bool := negb (Qle_bool b a).

(** Lines 68-79: [score = 0], then the quotient when there are common
    words. *)
Definition match_score (task_lower pattern_task : string) : Q :=
  let task_words := words task_lower in
  let pattern_words := words pattern_task in
  let common_words := Py.inter task_words pattern_words in
  match common_words with
  | [] => 0%Q
  | _ => (Z.of_nat (List.length common_words)
          # Pos.of_nat (Nat.max (List.length task_words)
                                (List.length pattern_words)))%Q
  end.

(** The loop of [find_pattern] over the results of [parse_pattern_file] in
    enumeration order; a candidate whose step raises is skipped. *)
Fixpoint scan (task_lower : string) (parsed : list (outcome Pattern))
         (best_match : option Pattern) (best_score : Q) : option Pattern :=
  match parsed with
  | [] => best_match
  | f :: rest =>
      match (pattern <- f ;; t <- pattern_task pattern ;; Returned (pattern, t)) with
      | Raised _ => scan task_lower rest best_match best_score
      | Returned (pattern, pattern_task) =>
          if String.eqb task_lower pattern_task then Some pattern
          else
            let score := match_score task_lower pattern_task in
            if Qltb best_score score && Qltb threshold score
            then scan task_lower rest (Some pattern) score
            else scan task_lower rest best_match best_score
      end
  end.

Definition find_pattern_in (task : string) (parsed : list (outcome Pattern))
  : option Pattern :=
  scan (Py.lower task) parsed None 0%Q.

(** ** Pattern validator: [validate_pattern] *)

Record Validation : Type := mkValidation {
  valid : bool;
  errors : list string;
  warnings : list string
}.

Definition required_metadata : list string :=
  ["task"; "complexity"; "tags"; "dependencies"].

(** [str(n)] for an [int]. *)
Definition str_of_int (n : Z) : string := NilZero.string_of_int (Z.to_int n).

Definition not_supported (op : string) (v : yaml) : exn :=
  Exn TypeError
      ("'" ++ op ++ "' not supported between instances of '" ++ type_name v
       ++ "' and 'int'").

(** Lines 116-118: [complexity > 5] and the warning.  Integers compare,
    [True] and [False] count as 1 and 0, anything else raises [TypeError]. *)
Definition complexity_warnings (complexity : yaml) : outcome (list string) :=
  match complexity with
  | YInt n =>
      Returned (if (5 <? n)%Z
                then ["Pattern complexity " ++ str_of_int n
                      ++ " exceeds recommended max 5"]
                else [])
  | YBool _ => Returned []
  | v => Raised (not_supported ">" v)
  end.

Definition validate_pattern (pattern : Pattern) : outcome Validation :=
  let errors0 :=
    flat_map (fun field =>
                if dict_has field (metadata_of pattern) then []
                else ["Missing required metadata: " ++ field])
             required_metadata in
  let code := match code pattern with Some c => c | None => "" end in
  let errors1 :=
    if String.length (Py.strip code) <? 50
    then (errors0 ++ ["Pattern code too short"])%list else errors0 in
  let errors2 :=
    if Py.contains "TODO" code || Py.contains "pass" code
    then (errors1 ++ ["Pattern contains incomplete sections"])%list
    else errors1 in
  let complexity :=
    match dict_get "complexity" (metadata_of pattern) with
    | Some v => v
    | None => YInt 0
    end in
  warnings <- complexity_warnings complexity ;;
  Returned (mkValidation (match errors2 with [] => true | _ => false end)
                         errors2 warnings).

(** ** Orchestrator: [determine_agent] *)

Definition agent_keywords : list (string * list string) :=
  [ ("infrastructure",
     ["setup"; "install"; "deploy"; "config"; "build"; "nextjs"; "next.js";
      "project"]);
    ("frontend_ui",
     ["component"; "ui"; "button"; "form"; "layout"; "page"; "homepage";
      "navigation"]) ].

(** The [for] loop over the keyword table, in its insertion order. *)
Fixpoint first_agent (task_lower : string)
         (table : list (string * list string)) : option string :=
  match table with
  | [] => None
  | (agent_name, keywords) :: rest =>
      if existsb (fun keyword => Py.contains keyword task_lower) keywords
      then Some agent_name
      else first_agent task_lower rest
  end.

Definition determine_agent (task : string) : string :=
  let task_lower := Py.lower task in
  match first_agent task_lower agent_keywords with
  | Some agent_name => agent_name
  | None => "frontend_ui"
  end.

(** ** The world an agent runs in *)

(** One line of [.ai/metrics.jsonl]: the object [json.dumps] writes. *)
Record Metrics : Type := mkMetrics {
  timestamp : string;
  m_task : string;
  m_domain : string;
  pattern_reused : bool;
  patterns_total : nat
}.

(** [heap]: the metadata [dict] objects by address.  [dirs]: for a
    directory path, its [*.md] entries (name and text) in the order [glob]
    lists them, [None] when the directory does not exist.  [clock]: the
    number of readings of [datetime.now()] so far. *)
Record World : Type := mkWorld {
  heap : list Mapping;
  dirs : string -> option (list (string * string));
  metrics_log : list Metrics;
  errors_log : list string;
  clock : nat
}.

Definition set_heap (h : list Mapping) (w : World) : World :=
  mkWorld h (dirs w) (metrics_log w) (errors_log w) (clock w).

Definition set_dirs (d : string -> option (list (string * string)))
           (w : World) : World :=
  mkWorld (heap w) d (metrics_log w) (errors_log w) (clock w).

Definition tick (w : World) : World :=
  mkWorld (heap w) (dirs w) (metrics_log w) (errors_log w) (S (clock w)).

(** The [dict] at an address, and the heap after a store into it. *)
Definition deref (a : nat) (w : World) : Mapping := nth a (heap w) [].

Fixpoint heap_update (a : nat) (f : Mapping -> Mapping) (h : list Mapping)
  : list Mapping :=
  match a, h with
  | _, [] => []
  | O, m :: r => f m :: r
  | S k, m :: r => m :: heap_update k f r
  end.

(** [obj[k] = v] on the [dict] at address [a]. *)
Definition store_item (a : nat) (k : string) (v : yaml) (w : World) : World :=
  set_heap (heap_update a (dict_set k v) (heap w)) w.

(** A fresh empty [dict]. *)
Definition alloc_dict (w : World) : nat * World :=
  (List.length (heap w), set_heap (heap w ++ [[]])%list w).

(** The pattern as its holder sees it now. *)
Definition snapshot (w : World) (p : PatternObj) : Pattern :=
  mkPattern (option_map (fun a => deref a w) (metadata p)) (description p)
            (code p) (setup p) (usage p) (notes p) (language p).

(** Computations that change the world and may raise. *)
Definition M (A : Type) : Type := World -> outcome A * World.

Definition ret {A : Type} (a : A) : M A := fun w => (Returned a, w).

Definition raise {A : Type} (e : exn) : M A := fun w => (Raised e, w).

Definition bindM {A B : Type} (c : M A) (k : A -> M B) : M B :=
  fun w => match c w with
           | (Returned a, w') => k a w'
           | (Raised e, w') => (Raised e, w')
           end.

Notation "x <~ c ;; k" := (bindM c (fun x => k))
  (at level 61, c at next level, right associativity).

Definition patterns_dir (domain : string) : string := ".ai/patterns/" ++ domain.

(** [list(self.patterns_dir.glob('*.md'))] *)
Definition glob_md (domain : string) (w : World) : list (string * string) :=
  match dirs w (patterns_dir domain) with
  | Some entries => entries
  | None => []
  end.

(** [filepath.read_text()] on the stored text of a file.  The file is
    opened in text mode with universal newlines: a carriage return
    followed by a line feed, and a carriage return alone, are read as one
    line feed.  [after_cr] tells that the character before was a carriage
    return.  [write_text], on a POSIX system, stores its text as it is. *)
Fixpoint universal_newlines (after_cr : bool) (stored : string) : string :=
  match stored with
  | EmptyString => EmptyString
  | String c r =>
      if Ascii.eqb c "013" then String "010" (universal_newlines true r)
      else if Ascii.eqb c "010" && after_cr then universal_newlines false r
      else String c (universal_newlines false r)
  end.

Definition read_text (stored : string) : string :=
  universal_newlines false stored.

(** ** Sorting of mapping keys, as [yaml.dump] does by default *)

Fixpoint insert_entry (e : string * yaml) (l : Mapping) : Mapping :=
  match l with
  | [] => [e]
  | e' :: r =>
      if String.leb (fst e) (fst e') then e :: l else e' :: insert_entry e r
  end.

Definition sort_keys (m : Mapping) : Mapping := fold_right insert_entry [] m.

(** ** Regular expressions of the codec *)

Fixpoint drop_while (f : ascii -> bool) (s : string) : string :=
  match s with
  | EmptyString => EmptyString
  | String c r => if f c then drop_while f r else s
  end.

(** The [re.match] of line 232, with [re.DOTALL]: the text opens with a
    line [---]; the lazy group 1 runs to the first later line [---], and
    group 2 is all the rest. *)
Definition match_frontmatter (content : string) : option (string * string) :=
  if Py.startswith "---
" content
  then
    let r := Py.drop 4 content in
    match Py.find "
---
" r with
    | Some i => Some (Py.take i r, Py.drop (i + 5) r)
    | None => None
    end
  else None.

(** The regular expression of line 240 tried at the start of [s]: after
    the fence, the greedy run of word characters is taken whole (a shorter
    run is followed by a word character, not by the newline), and the lazy
    group 1 runs to the first line that opens with a fence. *)
Definition code_block_at (s : string) : option string :=
  if Py.startswith "```" s
  then
    match drop_while Py.isword (Py.drop 3 s) with
    | String "010"%char r =>
        match Py.find "
```" r with
        | Some e => Some (Py.take e r)
        | None => None
        end
    | _ => None
    end
  else None.

(** The [re.search] of line 240: group 1 of the leftmost match. *)
Fixpoint search_code_block (body : string) : option string :=
  match code_block_at body with
  | Some g => Some g
  | None =>
      match body with
      | EmptyString => None
      | String _ r => search_code_block r
      end
  end.

(** [extract_section]; [if end:] is false for [None] and for the empty
    string. *)
Definition extract_section (text start : string) (end_ : option string)
  : string :=
  match Py.find start text with
  | None => ""
  | Some i =>
      let start_idx := i + String.length start in
      match end_ with
      | Some (String c e) =>
          match Py.find_from (String c e) text start_idx with
          | None => Py.strip (Py.drop start_idx text)
          | Some end_idx => Py.strip (Py.slice start_idx end_idx text)
          end
      | _ => Py.strip (Py.drop start_idx text)
      end
  end.

(** [re.sub(r'[^\w\s-]', '', s)] *)
Fixpoint keep_slug_chars (s : string) : string :=
  match s with
  | EmptyString => EmptyString
  | String c r =>
      if Py.isword c || Py.isspace c || Ascii.eqb c "-"
      then String c (keep_slug_chars r) else keep_slug_chars r
  end.

(** [re.sub(r'[-\s]+', '-', s)]; [in_run] tells that the run has already
    been replaced. *)
Fixpoint collapse_runs (in_run : bool) (s : string) : string :=
  match s with
  | EmptyString => EmptyString
  | String c r =>
      if Py.isspace c || Ascii.eqb c "-"
      then if in_run then collapse_runs true r
           else String "-" (collapse_runs true r)
      else String c (collapse_runs false r)
  end.

(** The file name [save_pattern] derives from the task. *)
Definition slug (task : string) : string :=
  Py.take 50 (collapse_runs false (keep_slug_chars (Py.lower task))) ++ ".md".

(** ** Agents *)

(** [PatternFirstAgent] is abstract in [create_pattern]; a concrete agent
    fixes its domain and supplies the method. *)
Class Agent : Type := {
  domain : string;
  create_pattern : string -> M PatternObj
}.

#[export] Instance FrontendUIAgent : Agent := {
  domain := "frontend";
  create_pattern task :=
    raise (Exn NotImplementedError
      ("Frontend UI agent cannot create patterns inline for: " ++ task ++ "
Patterns must be created separately and added to .ai/patterns/frontend/
Use: python3 .ai/orchestrator.py create '{task}' to create a pattern manually"))
}.

#[export] Instance InfrastructureAgent : Agent := {
  domain := "infrastructure";
  create_pattern task :=
    raise (Exn NotImplementedError
      ("Infrastructure agent cannot create patterns inline for: " ++ task ++ "
Patterns must be created separately and added to .ai/patterns/infrastructure/
Use: python3 .ai/orchestrator.py create '{task}' to create a pattern manually"))
}.

(** [Orchestrator.initialize_agents] and the lookup of [execute_task]. *)
Definition agents (agent_name : string) : option Agent :=
  if String.eqb agent_name "infrastructure" then Some InfrastructureAgent
  else if String.eqb agent_name "frontend_ui" then Some FrontendUIAgent
  else None.

Section Framework.

(** What the code takes from PyYAML, the interpreter and the system clock:
    - [yaml_entry k v]: the block-style text [yaml.dump] emits for the
      entry [k: v] of a mapping, with its final newline;
    - [yaml_safe_load]: [yaml.safe_load] on a text;
    - [py_repr v]: [str(v)] for a list or a [dict];
    - [repr_strs l]: [str(l)] for a list of strings;
    - [isoformat n]: the text of [datetime.now().isoformat()] at the
      [n]-th reading of the clock. *)
Variable yaml_entry : string -> yaml -> string.
Variable yaml_safe_load : string -> outcome yaml.
Variable py_repr : yaml -> string.
Variable repr_strs : list string -> string.
Variable isoformat : nat -> string.

(** [str(v)], as an f-string prints a value. *)
Definition py_str (v : yaml) : string :=
  match v with
  | YStr s => s
  | YInt n => str_of_int n
  | YBool true => "True"
  | YBool false => "False"
  | YNull => "None"
  | YSeq _ | YMap _ => py_repr v
  end.

(** [yaml.dump(m, default_flow_style=False)] on a mapping: [sort_keys] is
    left at its default, so the entries come out in sorted key order, one
    block-style entry after the other; the empty mapping is the flow text
    of two braces. *)
Definition yaml_dump (m : Mapping) : string :=
  match m with
  | [] => "{}
"
  | _ => String.concat "" (map (fun e => yaml_entry (fst e) (snd e))
                                (sort_keys m))
  end.

(** [datetime.now().isoformat()] *)
Definition now : M string :=
  fun w => (Returned (isoformat (clock w)), tick w).

Definition setitem (a : nat) (k : string) (v : yaml) : M unit :=
  fun w => (Returned tt, store_item a k v w).

Definition or_default (o : option string) (d : string) : string :=
  match o with Some s => s | None => d end.

(** The f-string of lines 152-178. *)
Definition render (metadata : Mapping) (frontmatter : string)
           (pattern : PatternObj) : string :=
  "---
" ++ frontmatter ++ "---

# " ++ py_str (match dict_get "task" metadata with
               | Some v => v
               | None => YStr "Pattern"
               end) ++ "

## Description

" ++ or_default (description pattern) "" ++ "

## Setup Instructions

" ++ or_default (setup pattern) "No additional setup required." ++ "

## Usage

" ++ or_default (usage pattern) "" ++ "

## Notes

" ++ or_default (notes pattern) "" ++ "

## Code

```" ++ py_str (match language pattern with
                | Some v => v
                | None => YStr "typescript"
                end) ++ "
" ++ or_default (code pattern) "" ++ "
```
".

(** [format_pattern_markdown]: [metadata] is the caller's [dict] when the
    pattern has one, a fresh [{}] otherwise, and the three stores go into
    that object. *)
Definition format_pattern_markdown (pattern : PatternObj) : M string :=
  a <~ match metadata pattern with
       | Some a => ret a
       | None => fun w => let (a, w') := alloc_dict w in (Returned a, w')
       end ;;
  created <~ now ;;
  _ <~ setitem a "created" (YStr created) ;;
  updated <~ now ;;
  _ <~ setitem a "updated" (YStr updated) ;;
  _ <~ setitem a "version" (YStr "1.0.0") ;;
  fun w =>
    let metadata := deref a w in
    let frontmatter := yaml_dump metadata in
    (Returned (render metadata frontmatter pattern), w).

(** [parse_pattern_file] on a file that holds the text [stored]: line 229
    reads it with [read_text], and the rest works on what was read. *)
Definition parse_pattern_file (stored : string) : outcome Pattern :=
  let content := read_text stored in
  match match_frontmatter content with
  | None => Returned empty_pattern
  | Some (group1, body) =>
      metadata <- yaml_safe_load group1 ;;
      let code := match search_code_block body with
                  | Some g => g
                  | None => ""
                  end in
      let description := extract_section body "Description" (Some "## Code") in
      let setup := extract_section body "## Setup Instructions" (Some "## Usage") in
      let usage := extract_section body "## Usage" (Some "## Notes") in
      let notes := extract_section body "## Notes" None in
      match metadata with
      | YMap m =>
          Returned (mkPattern (Some m) (Some (Py.strip description))
                              (Some code) (Some (Py.strip setup))
                              (Some (Py.strip usage)) (Some (Py.strip notes))
                              (Some (match dict_get "language" m with
                                     | Some v => v
                                     | None => YStr "typescript"
                                     end)))
      | v => Raised (no_attribute v "get")
      end
  end.

(** The candidates of [find_pattern]: every [*.md] entry, parsed. *)
Definition parse_all (entries : list (string * string))
  : list (outcome Pattern) :=
  map (fun f => parse_pattern_file (snd f)) entries.

(** [find_pattern], on the directory of a domain. *)
Definition find_pattern (domain task : string) (w : World) : option Pattern :=
  match dirs w (patterns_dir domain) with
  | None => None
  | Some entries => find_pattern_in task (parse_all entries)
  end.

(** [filepath.write_text(content)]: the entry is replaced where it is, or
    added after the others; the directory must exist. *)
Fixpoint write_entry (name content : string) (entries : list (string * string))
  : list (string * string) :=
  match entries with
  | [] => [(name, content)]
  | (n, c) :: r =>
      if String.eqb n name then (n, content) :: r
      else (n, c) :: write_entry name content r
  end.

Definition write_text (dir name content : string) : M unit :=
  fun w =>
    match dirs w dir with
    | None =>
        (Raised (Exn FileNotFoundError
                     ("[Errno 2] No such file or directory: '" ++ dir ++ "/"
                      ++ name ++ "'")), w)
    | Some entries =>
        (Returned tt,
         set_dirs (fun d => if String.eqb d dir
                            then Some (write_entry name content entries)
                            else dirs w d) w)
    end.

Definition save_pattern (domain : string) (pattern : PatternObj)
           (task : string) : M string :=
  let filename := slug task in
  content <~ format_pattern_markdown pattern ;;
  _ <~ write_text (patterns_dir domain) filename content ;;
  ret (patterns_dir domain ++ "/" ++ filename).

(** [generate_from_pattern] *)
Definition generate_from_pattern {X : Type} (pattern : PatternOf X)
           (task : string) : string :=
  or_default (code pattern) "".

Definition log_metrics (domain task : string) (pattern_reused : bool)
  : M unit :=
  t <~ now ;;
  fun w =>
    let metrics :=
      mkMetrics t task domain pattern_reused
                (List.length (glob_md domain w)) in
    (Returned tt,
     mkWorld (heap w) (dirs w) (metrics_log w ++ [metrics])%list
             (errors_log w) (clock w)).

Definition log_error (error_message : string) : M unit :=
  t <~ now ;;
  fun w =>
    (Returned tt,
     mkWorld (heap w) (dirs w) (metrics_log w)
             (errors_log w ++ [(t ++ " - " ++ error_message ++ "
")%string])%list (clock w)).

Definition handle_error (domain : string) (error : exn) (task : string)
  : M string :=
  let error_message :=
    "Error processing task '" ++ task ++ "': " ++ exn_str error in
  _ <~ log_error error_message ;;
  ret ("
## Error Encountered

" ++ error_message ++ "

### Troubleshooting Steps:
1. Check that the philosophy.md file exists
2. Verify the pattern directory structure
3. Try creating the pattern manually first

### Fallback Action:
You can create the pattern manually in: " ++ patterns_dir domain ++ "
").

Context {agent : Agent}.

(** Steps 2 to 4 of [execute]: create, validate, save. *)
Definition create_validate_save (task : string) : M PatternObj :=
  pattern <~ create_pattern task ;;
  validation_result <~ (fun w => (validate_pattern (snapshot w pattern), w)) ;;
  _ <~ (if valid validation_result then ret tt
        else raise (Exn ValueError
                        ("Pattern validation failed: "
                         ++ repr_strs (errors validation_result)))) ;;
  _ <~ save_pattern domain pattern task ;;
  ret pattern.

(** The [try] block of [execute].  The variable [pattern] holds the match
    when that is a non-empty [dict], and the created pattern otherwise; in
    both cases it is a [dict], so [pattern is not None] is true when the
    metrics are written. *)
Definition execute_body (task : string) : M string :=
  found <~ (fun w => (Returned (find_pattern domain task w), w)) ;;
  pattern <~ match found with
             | Some p =>
                 if truthy p then ret (inl p)
                 else (q <~ create_validate_save task ;; ret (inr q))
             | None => q <~ create_validate_save task ;; ret (inr q)
             end ;;
  let code := match pattern with
              | inl p => generate_from_pattern p task
              | inr q => generate_from_pattern q task
              end in
  _ <~ log_metrics domain task true ;;
  ret code.

(** [execute]: what the [try] block returns, or the answer of
    [handle_error] on any exception. *)
Definition execute (task : string) : M string :=
  fun w =>
    match execute_body task w with
    | (Returned code, w') => (Returned code, w')
    | (Raised e, w') => handle_error domain e task w'
    end.

End Framework.

(** [Orchestrator.execute_task] *)
Definition execute_task (yaml_entry : string -> yaml -> string)
           (yaml_safe_load : string -> outcome yaml)
           (py_repr : yaml -> string) (repr_strs : list string -> string)
           (isoformat : nat -> string) (task : string) : M string :=
  let agent_name := determine_agent task in
  match agents agent_name with
  | Some agent =>
      execute yaml_entry yaml_safe_load py_repr repr_strs isoformat
              (agent := agent) task
  | None => raise (Exn ValueError ("Agent " ++ agent_name ++ " not found"))
  end.

(** ** A small YAML codec and clock

    Instances of what the framework takes from outside, for running the
    definitions on examples: the block-style text of mappings whose values
    are scalars or empty sequences, and its reader. *)
Module Sample.

Definition isoformat (n : nat) : string :=
  "2024-05-01T10:00:00.00000" ++ str_of_int (Z.of_nat (n mod 10)).

Definition scalar (v : yaml) : string :=
  match v with
  | YStr s => if Py.contains ":" s then "'" ++ s ++ "'" else s
  | YInt n => str_of_int n
  | YBool true => "true"
  | YBool false => "false"
  | YNull => "null"
  | YSeq _ => "[]"
  | YMap _ => "{}"
  end.

Definition yaml_entry (k : string) (v : yaml) : string :=
  k ++ ": " ++ scalar v ++ "
".

Definition py_repr (v : yaml) : string :=
  match v with YSeq _ => "[]" | _ => "{}" end.

Fixpoint repr_strs_items (l : list string) : string :=
  match l with
  | [] => ""
  | [s] => "'" ++ s ++ "'"
  | s :: r => "'" ++ s ++ "', " ++ repr_strs_items r
  end.

Definition repr_strs (l : list string) : string :=
  "[" ++ repr_strs_items l ++ "]".

(** Lines of a text, without their newlines. *)
Fixpoint lines_from (cur s : string) : list string :=
  match s with
  | EmptyString => match cur with EmptyString => [] | _ => [cur] end
  | String c r =>
      if Ascii.eqb c "010" then cur :: lines_from EmptyString r
      else lines_from (cur ++ String c EmptyString) r
  end.

Definition read_scalar (s : string) : yaml :=
  match s with
  | String "'" r => YStr (Py.take (String.length r - 1) r)
  | "[]" => YSeq []
  | "{}" => YMap []
  | "null" => YNull
  | "true" => YBool true
  | "false" => YBool false
  | _ => match NilZero.int_of_string s with
         | Some n => YInt (Z.of_int n)
         | None => YStr s
         end
  end.

Definition read_entry (line : string) : outcome (string * yaml) :=
  match Py.find ": " line with
  | Some i => Returned (Py.take i line, read_scalar (Py.drop (i + 2) line))
  | None => Raised (Exn YAMLError "could not find expected ':'")
  end.

Fixpoint read_entries (ls : list string) : outcome Mapping :=
  match ls with
  | [] => Returned []
  | l :: r =>
      e <- read_entry l ;;
      m <- read_entries r ;;
      Returned (e :: m)
  end.

Definition yaml_safe_load (text : string) : outcome yaml :=
  match lines_from EmptyString text with
  | [] => Returned YNull
  | ls => m <- read_entries ls ;; Returned (YMap m)
  end.

(** A world with the two pattern directories, both empty. *)
Definition empty_world : World :=
  mkWorld []
          (fun d => if String.eqb d ".ai/patterns/frontend" then Some []
                    else if String.eqb d ".ai/patterns/infrastructure"
                         then Some [] else None)
          [] [] 0.

(** A pattern whose metadata [dict] is the first of the heap, and a world
    that holds it. *)
Definition homepage_metadata : Mapping :=
  [("task", YStr "create homepage"); ("complexity", YInt 2);
   ("tags", YSeq []); ("dependencies", YSeq [])].

Definition homepage : PatternObj :=
  mkPattern (Some 0) (Some "A landing page.") (Some "export const Home = 1;")
            (Some "npm install") (Some "Import Home.") (Some "None yet.")
            None.

Definition homepage_world : World :=
  mkWorld [homepage_metadata] (dirs empty_world) [] [] 0.

End Sample.

(** ** Vocabulary of the properties *)

(** What the loop of [find_pattern] sees of a candidate: its pattern and
    lower-cased task label, or nothing when the step raises. *)
Definition candidate (f : outcome Pattern) : option (Pattern * string) :=
  match f with
  | Returned p =>
      match pattern_task p with
      | Returned t => Some (p, t)
      | Raised _ => None
      end
  | Raised _ => None
  end.

(** The candidate's label equals the task, both lower-cased. *)
Definition exact (task : string) (f : outcome Pattern) : bool :=
  match candidate f with
  | Some (_, t) => String.eqb (Py.lower task) t
  | None => false
  end.

(** The score of a candidate for a task; a skipped one has none, read 0. *)
Definition score_of (task : string) (f : outcome Pattern) : Q :=
  match candidate f with
  | Some (_, t) => match_score (Py.lower task) t
  | None => 0%Q
  end.

(** The words the lower-cased task and label share. *)
Definition common_words (task_lower label : string) : list string :=
  Py.inter (words task_lower) (words label).

(** The [complexity] entry is absent or an integer ([bool] included), as
    the data model has it. *)
Definition complexity_is_int (p : Pattern) : bool :=
  match dict_get "complexity" (metadata_of p) with
  | None | Some (YInt _) | Some (YBool _) => true
  | Some _ => false
  end.

(** The three error checks of the validator, one by one. *)
Definition has_required (p : Pattern) : bool :=
  forallb (fun field => dict_has field (metadata_of p)) required_metadata.

Definition code_of (p : Pattern) : string :=
  match code p with Some c => c | None => "" end.

Definition long_enough (p : Pattern) : bool :=
  negb (String.length (Py.strip (code_of p)) <? 50).

Definition complete (p : Pattern) : bool :=
  negb (Py.contains "TODO" (code_of p) || Py.contains "pass" (code_of p)).

(** The errors of [validate_pattern], in the order it appends them. *)
Definition errors_of (p : Pattern) : list string :=
  (flat_map (fun field =>
               if dict_has field (metadata_of p) then []
               else [("Missing required metadata: " ++ field)%string])
            required_metadata
   ++ (if long_enough p then [] else ["Pattern code too short"])
   ++ (if complete p then [] else ["Pattern contains incomplete sections"]))%list.

(** The keyword set of an agent, and whether the lower-cased task holds
    one of its keywords as a substring. *)
Definition keywords_of (agent_name : string) : list string :=
  match List.find (fun e => String.eqb (fst e) agent_name) agent_keywords with
  | Some e => snd e
  | None => []
  end.

Definition mentions (task agent_name : string) : bool :=
  existsb (fun keyword => Py.contains keyword (Py.lower task))
          (keywords_of agent_name).

(** The message [handle_error] logs for a task and an exception. *)
Definition error_message_of (task : string) (error : exn) : string :=
  "Error processing task '" ++ task ++ "': " ++ exn_str error.

(** The metadata after the three stores of [format_pattern_markdown], for
    a first clock reading [n]. *)
Definition stamped (isoformat : nat -> string) (n : nat) (m : Mapping)
  : Mapping :=
  dict_set "version" (YStr "1.0.0")
    (dict_set "updated" (YStr (isoformat (S n)))
       (dict_set "created" (YStr (isoformat n)) m)).

(** The keys the codec injects. *)
Definition injected (k : string) : bool :=
  String.eqb k "created" || String.eqb k "updated" || String.eqb k "version".

(** The order of two entries by their keys, code point by code point. *)
Definition key_le (e1 e2 : string * yaml) : Prop :=
  String.leb (fst e1) (fst e2) = true.

(** What [pattern.get('metadata', {})] is when serialization starts. *)
Definition metadata_at (w : World) (p : PatternObj) : Mapping :=
  match metadata p with Some a => deref a w | None => [] end.

(** The address in the pattern, if any, is one of the heap. *)
Definition well_addressed (w : World) (p : PatternObj) : Prop :=
  match metadata p with Some a => a < List.length (heap w) | None => True end.

(** The first occurrence of [sub] in [pre ++ sub ++ rest] is right after
    [pre], whatever follows. *)
Definition first_at (sub pre : string) : Prop :=
  forall rest, Py.find sub (pre ++ sub ++ rest) = Some (String.length pre).

(** The first fenced block of [pre ++ x] is the one [x] opens with,
    whenever it opens with one. *)
Definition no_block_in (pre : string) : Prop :=
  forall x g, code_block_at x = Some g ->
              search_code_block (pre ++ x) = Some g.

(** Every character is a word character. *)
Fixpoint all_word (s : string) : bool :=
  match s with
  | EmptyString => true
  | String c r => Py.isword c && all_word r
  end.

(** The text has none of the three markers that end or start a section
    in [parse_pattern_file], and no code fence. *)
Definition marker_free (f : string) : bool :=
  negb (Py.contains "## Setup Instructions" f)
  && negb (Py.contains "## Usage" f)
  && negb (Py.contains "## Notes" f)
  && negb (Py.contains "```" f).

(** The part of the serialized document after the frontmatter, from its
    title, its four sections, its language tag and its code. *)
Definition document_body (title d s u n l c : string) : string :=
  "
# " ++ title ++ "

## Description

" ++ d ++ "

## Setup Instructions

" ++ s ++ "

## Usage

" ++ u ++ "

## Notes

" ++ n ++ "

## Code

```" ++ l ++ "
" ++ c ++ "
```
".

(** What the serializer prints of a pattern: its sections, with the
    defaults of [format_pattern_markdown]. *)
Definition description_of (p : PatternObj) : string :=
  or_default (description p) "".
Definition setup_of (p : PatternObj) : string :=
  or_default (setup p) "No additional setup required.".
Definition usage_of (p : PatternObj) : string := or_default (usage p) "".
Definition notes_of (p : PatternObj) : string := or_default (notes p) "".
Definition code_text_of (p : PatternObj) : string := or_default (code p) "".

(** The title and the language tag of the document. *)
Definition title_of (py_repr : yaml -> string) (m : Mapping) : string :=
  py_str py_repr (match dict_get "task" m with
                  | Some v => v
                  | None => YStr "Pattern"
                  end).

Definition tag_of (py_repr : yaml -> string) (p : PatternObj) : string :=
  py_str py_repr (match language p with
                  | Some v => v
                  | None => YStr "typescript"
                  end).

(** The texts of the pattern can be told from the skeleton around them:
    title and sections hold no marker and no fence, setup and usage have
    no blank at either end, the language tag is made of word characters,
    and no line of the code opens with a fence. *)
Definition readable (title tag : string) (p : PatternObj) : Prop :=
  marker_free title = true
  /\ marker_free (description_of p) = true
  /\ marker_free (setup_of p) = true
  /\ marker_free (usage_of p) = true
  /\ marker_free (notes_of p) = true
  /\ Py.strip (setup_of p) = setup_of p
  /\ Py.strip (usage_of p) = usage_of p
  /\ all_word tag = true
  /\ Py.find "
```" (code_text_of p) = None.

(** The text holds no carriage return: [read_text] gives it back as it
    was written. *)
Definition no_cr (s : string) : bool := negb (Py.has_char "013" s).

(** No text of the pattern holds a carriage return. *)
Definition without_cr (title tag : string) (p : PatternObj) : Prop :=
  no_cr title = true
  /\ no_cr (description_of p) = true
  /\ no_cr (setup_of p) = true
  /\ no_cr (usage_of p) = true
  /\ no_cr (notes_of p) = true
  /\ no_cr tag = true
  /\ no_cr (code_text_of p) = true.

(** The YAML library reads its dump of [m] back: the dump is [fm] and a
    final newline, it holds no carriage return (PyYAML writes one in a
    scalar as an escape), none of its lines but the first is three dashes,
    and loading [fm] gives the entries of [m] in the order of the dump. *)
Definition yaml_reads_back (yaml_entry : string -> yaml -> string)
           (yaml_safe_load : string -> outcome yaml) (m : Mapping)
           (fm : string) : Prop :=
  yaml_dump yaml_entry m = fm ++ "
"
  /\ no_cr fm = true
  /\ Py.find "
---
" (fm ++ "
") = None
  /\ yaml_safe_load fm = Returned (YMap (sort_keys m)).

(** The keys of a mapping, in its own order. *)
Definition keys (m : Mapping) : list string := map fst m.

(** The two logs are as they were. *)
Definition same_logs (w w' : World) : Prop :=
  metrics_log w' = metrics_log w /\ errors_log w' = errors_log w.

(** [not pattern] on the result of [find_pattern]: [None] or the empty
    [dict]. *)
Definition is_miss (found : option Pattern) : bool :=
  match found with
  | Some p => negb (truthy p)
  | None => true
  end.

(** A pattern by value with the given task label and nothing else. *)
Definition labelled (label : string) : Pattern :=
  mkPattern (Some [("task", YStr label)]) None None None None None None.

(** ** Properties of the matcher *)

Lemma Qltb_lt (a b : Q) : Qltb a b = true <-> (a < b)%Q.
Proof.
  unfold Qltb. rewrite negb_true_iff. split; intros H.
  - apply Qnot_le_lt. intros L. apply Qle_bool_iff in L. congruence.
  - destruct (Qle_bool b a) eqn:E; [|reflexivity].
    apply Qle_bool_iff in E. exfalso. exact (Qlt_not_le _ _ H E).
Qed.

Lemma Qltb_ge (a b : Q) : Qltb a b = false <-> (b <= a)%Q.
Proof.
  unfold Qltb. rewrite negb_false_iff. apply Qle_bool_iff.
Qed.

(** One turn of the loop, on what the candidate shows. *)
Lemma scan_skip tl f rest bm bs :
  candidate f = None -> scan tl (f :: rest) bm bs = scan tl rest bm bs.
Proof.
  unfold candidate. intros H. simpl. destruct f as [p|e]; simpl; [|reflexivity].
  destruct (pattern_task p); simpl; [discriminate|reflexivity].
Qed.

Lemma scan_seen tl f rest bm bs p t :
  candidate f = Some (p, t) ->
  scan tl (f :: rest) bm bs =
    if String.eqb tl t then Some p
    else if Qltb bs (match_score tl t) && Qltb threshold (match_score tl t)
         then scan tl rest (Some p) (match_score tl t)
         else scan tl rest bm bs.
Proof.
  unfold candidate. intros H. destruct f as [q|e]; [|discriminate].
  simpl. destruct (pattern_task q) as [u|e]; [|discriminate].
  injection H as -> ->. reflexivity.
Qed.

Lemma threshold_pos : (0 < threshold)%Q.
Proof. reflexivity. Qed.



Lemma not_exact_seen task f :
  exact task f = false ->
  match candidate f with
  | Some (_, u) => String.eqb (Py.lower task) u = false
  | None => True
  end.
Proof.
  unfold exact. destruct (candidate f) as [[p u]|]; [intros H; exact H|constructor].
Qed.





(** Whatever [scan] returns is the incoming best, an exact match, or a
    candidate scored above the threshold. *)
Lemma scan_result tl parsed : forall bm bs p,
  scan tl parsed bm bs = Some p ->
  bm = Some p
  \/ exists f t, In f parsed /\ candidate f = Some (p, t)
                 /\ (String.eqb tl t = true
                     \/ (threshold < match_score tl t)%Q).
Proof.
  induction parsed as [|f rest IH]; intros bm bs p.
  - simpl. intros H. left. exact H.
  - destruct (candidate f) as [[q t]|] eqn:Ef.
    + rewrite (scan_seen _ _ _ _ _ _ _ Ef).
      destruct (String.eqb tl t) eqn:Ee.
      * intros [= ->]. right. exists f, t. repeat split; auto. left. reflexivity.
      * destruct (Qltb bs _ && Qltb threshold _) eqn:Eu; intros H.
        -- apply andb_true_iff in Eu. destruct Eu as [_ Eu].
           apply Qltb_lt in Eu.
           destruct (IH _ _ _ H) as [[= ->]|(g & u & Hg & Hc & Hs)].
           ++ right. exists f, t. repeat split; auto. left. reflexivity.
           ++ right. exists g, u. repeat split; auto. right. exact Hg.
        -- destruct (IH _ _ _ H) as [Hb|(g & u & Hg & Hc & Hs)];
             [left; exact Hb|].
           right. exists g, u. repeat split; auto. right. exact Hg.
    + rewrite (scan_skip _ _ _ _ _ Ef). intros H.
      destruct (IH _ _ _ H) as [Hb|(g & u & Hg & Hc & Hs)]; [left; exact Hb|].
      right. exists g, u. repeat split; auto. right. exact Hg.
Qed.

Lemma candidate_label f p t :
  candidate f = Some (p, t) -> pattern_task p = Returned t.
Proof.
  unfold candidate. destruct f as [q|e]; [|discriminate].
  destruct (pattern_task q) eqn:E; [|discriminate].
  intros [= <- <-]. exact E.
Qed.

Lemma inter_length_le a b : List.length (Py.inter a b) <= List.length a.
Proof.
  unfold Py.inter. induction a as [|w a IH]; simpl; [lia|].
  destruct (Py.mem w b); simpl; lia.
Qed.

Lemma Qmake_of_nat (k m : nat) :
  m <> 0 ->
  (Z.of_nat k # Pos.of_nat m == inject_Z (Z.of_nat k) / inject_Z (Z.of_nat m))%Q.
Proof.
  intros Hm. rewrite Qmake_Qdiv.
  rewrite <- (positive_nat_Z (Pos.of_nat m)), Nat2Pos.id by exact Hm.
  reflexivity.
Qed.

(** The score is the quotient of the claim; with no common word both
    sides are 0, the quotient by 0 being 0 in [Q]. *)
Lemma match_score_quotient tl label :
  (match_score tl label ==
   inject_Z (Z.of_nat (List.length (common_words tl label)))
   / inject_Z (Z.of_nat (Nat.max (List.length (words tl))
                                 (List.length (words label)))))%Q.
Proof.
  unfold match_score, common_words.
  pose proof (inter_length_le (words tl) (words label)) as Hle.
  destruct (Py.inter (words tl) (words label)) as [|w r] eqn:E.
  - simpl List.length. unfold Qdiv. rewrite Qmult_0_l. reflexivity.
  - apply Qmake_of_nat. simpl in Hle. lia.
Qed.

Lemma match_score_zero tl label :
  common_words tl label = [] -> match_score tl label = 0%Q.
Proof.
  unfold match_score, common_words. intros ->. reflexivity.
Qed.

(** C3 (amended). For a candidate that is not an exact match, the score is
    the number of common words over the larger of the two word counts, on
    the whitespace-separated lower-cased word sets; when no word is common
    the score is 0 and [find_pattern] never returns that candidate. *)
Theorem C3_overlap_score (task : string) (p : Pattern) (label : string) :
  pattern_task p = Returned label ->
  String.eqb (Py.lower task) label = false ->
  (match_score (Py.lower task) label ==
   inject_Z (Z.of_nat (List.length (common_words (Py.lower task) label)))
   / inject_Z (Z.of_nat (Nat.max (List.length (words (Py.lower task)))
                                 (List.length (words label)))))%Q
  /\ (common_words (Py.lower task) label = [] ->
      match_score (Py.lower task) label = 0%Q
      /\ forall parsed, find_pattern_in task parsed <> Some p).
Proof.
  intros Hl Hne. split; [apply match_score_quotient|].
  intros Hc. pose proof (match_score_zero _ _ Hc) as Hz.
  split; [exact Hz|]. intros parsed Hf.
  destruct (scan_result _ _ _ _ _ Hf) as [Hb|(f & t & _ & Hcand & Hs)];
    [discriminate|].
  apply candidate_label in Hcand. rewrite Hl in Hcand.
  injection Hcand as <-. destruct Hs as [He|Hs]; [congruence|].
  rewrite Hz in Hs. discriminate Hs.
Qed.

Lemma C3_witness :
  common_words (Py.lower "Deploy App") "create homepage" = []
  /\ find_pattern_in "Deploy App"
       [Returned (labelled "deploy site"); Returned (labelled "Create Homepage")]
     <> Some (labelled "Create Homepage").
Proof.
  split; [reflexivity|].
  apply (proj2 (C3_overlap_score "Deploy App" (labelled "Create Homepage")
                  "create homepage" eq_refl eq_refl) eq_refl).
Defined.

(** C3 as stated fails: the empty task and a candidate with the empty
    label share no word and score 0, and the candidate is returned, by the
    exact-match test. *)
Lemma C3_counterexample :
  common_words (Py.lower "") (Py.lower "") = []
  /\ score_of "" (Returned (labelled "")) = 0%Q
  /\ find_pattern_in "" [Returned (labelled "deploy"); Returned (labelled "")]
     = Some (labelled "").
Proof. repeat split. Qed.

Lemma score_of_seen task f p t :
  candidate f = Some (p, t) -> score_of task f = match_score (Py.lower task) t.
Proof. unfold score_of. intros ->. reflexivity. Qed.

Lemma score_of_skipped task f : candidate f = None -> score_of task f = 0%Q.
Proof. unfold score_of. intros ->. reflexivity. Qed.

(** The loop without an exact match: either nobody replaces the incoming
    best, or the result is the earliest candidate of the highest score,
    which is above the incoming score and the threshold. *)
Lemma scan_best task parsed :
  (forall f, In f parsed -> exact task f = false) ->
  forall bm bs,
    (scan (Py.lower task) parsed bm bs = bm
     /\ forall f, In f parsed ->
                  (score_of task f <= bs)%Q \/ (score_of task f <= threshold)%Q)
    \/ exists pre f post p t,
         parsed = (pre ++ f :: post)%list /\ candidate f = Some (p, t)
         /\ scan (Py.lower task) parsed bm bs = Some p
         /\ (bs < score_of task f)%Q /\ (threshold < score_of task f)%Q
         /\ (forall g, In g pre -> (score_of task g < score_of task f)%Q)
         /\ (forall g, In g post -> (score_of task g <= score_of task f)%Q).
Proof.
  induction parsed as [|f rest IH]; intros Hne bm bs.
  - left. split; [reflexivity|intros f []].
  - assert (Hf := not_exact_seen _ _ (Hne f (or_introl eq_refl))).
    assert (IH' := IH (fun g Hg => Hne g (or_intror Hg))). clear IH.
    destruct (candidate f) as [[p t]|] eqn:Ef.
    + rewrite (scan_seen _ _ _ _ _ _ _ Ef), Hf.
      pose proof (score_of_seen task _ _ _ Ef) as Es.
      destruct (Qltb bs _ && Qltb threshold _) eqn:Eu.
      * apply andb_true_iff in Eu. destruct Eu as [E1 E2].
        apply Qltb_lt in E1, E2. rewrite <- Es in E1, E2.
        right.
        destruct (IH' (Some p) (match_score (Py.lower task) t))
          as [[Hr Hall]|(pre & g & post & q & u & -> & Hg & Hr & H1 & H2 & H3 & H4)].
        -- exists [], f, rest, p, t. simpl app.
           repeat split; try assumption; [intros g []|].
           intros g Hg. destruct (Hall g Hg) as [H|H];
             [rewrite <- Es in H|]; lra.
        -- exists (f :: pre), g, post, q, u. rewrite <- Es in H1.
           repeat split; try assumption; [lra|].
           intros h [<-|Hh]; [exact H1|apply H3, Hh].
      * apply andb_false_iff in Eu. rewrite !Qltb_ge, <- Es in Eu.
        destruct (IH' bm bs)
          as [[Hr Hall]|(pre & g & post & q & u & -> & Hg & Hr & H1 & H2 & H3 & H4)].
        -- left. split; [exact Hr|].
           intros h [<-|Hh]; [exact Eu|apply Hall, Hh].
        -- right. exists (f :: pre), g, post, q, u.
           repeat split; try assumption.
           intros h [<-|Hh]; [destruct Eu; lra|apply H3, Hh].
    + rewrite (scan_skip _ _ _ _ _ Ef).
      pose proof (score_of_skipped task _ Ef) as Es.
      pose proof threshold_pos as Ht.
      destruct (IH' bm bs)
        as [[Hr Hall]|(pre & g & post & q & u & -> & Hg & Hr & H1 & H2 & H3 & H4)].
      * left. split; [exact Hr|].
        intros h [<-|Hh]; [right; rewrite Es; lra|apply Hall, Hh].
      * right. exists (f :: pre), g, post, q, u.
        repeat split; try assumption.
        intros h [<-|Hh]; [rewrite Es; lra|apply H3, Hh].
Qed.

Lemma existsb_false_all {A : Type} (P : A -> bool) (l : list A) :
  existsb P l = false -> forall x, In x l -> P x = false.
Proof.
  intros H x Hx. destruct (P x) eqn:E; [|reflexivity].
  assert (existsb P l = true) by (apply existsb_exists; eauto). congruence.
Qed.

(** C4 (amended). When no candidate is an exact match: the pattern
    returned is the earliest candidate of the highest score, that score
    being above the threshold 3/10 and strictly above every earlier score;
    nothing is returned exactly when no score is above the threshold; of
    three candidates scoring 1/4, 7/20 and 1/2 in this order the third is
    returned; and of two candidates tied above the threshold the first is
    returned. *)
Theorem C4_running_best (task : string) (parsed : list (outcome Pattern)) :
  existsb (exact task) parsed = false ->
  match find_pattern_in task parsed with
  | Some p =>
      exists pre f post t,
        parsed = (pre ++ f :: post)%list /\ candidate f = Some (p, t)
        /\ (threshold < score_of task f)%Q
        /\ (forall g, In g pre -> (score_of task g < score_of task f)%Q)
        /\ (forall g, In g post -> (score_of task g <= score_of task f)%Q)
  | None => forall g, In g parsed -> (score_of task g <= threshold)%Q
  end
  /\ ((forall g, In g parsed -> (score_of task g <= threshold)%Q) ->
      find_pattern_in task parsed = None)
  /\ (forall f1 f2 f3 p3 t3,
         parsed = [f1; f2; f3] ->
         (score_of task f1 == 1 # 4)%Q -> (score_of task f2 == 7 # 20)%Q ->
         (score_of task f3 == 1 # 2)%Q -> candidate f3 = Some (p3, t3) ->
         find_pattern_in task parsed = Some p3)
  /\ (forall f1 f2 p1 t1,
         parsed = [f1; f2] -> candidate f1 = Some (p1, t1) ->
         (score_of task f1 == score_of task f2)%Q ->
         (threshold < score_of task f1)%Q ->
         find_pattern_in task parsed = Some p1).
Proof.
  intros Hne. pose proof (existsb_false_all _ _ Hne) as Hall. clear Hne.
  pose proof threshold_pos as Ht. unfold find_pattern_in.
  destruct (scan_best task parsed Hall None 0%Q)
    as [[Hr Hle]|(pre & f & post & p & t & Hp & Hc & Hr & H1 & H2 & H3 & H4)];
    rewrite Hr.
  - split; [|split; [|split]].
    + intros g Hg. destruct (Hle g Hg); lra.
    + reflexivity.
    + intros f1 f2 f3 p3 t3 -> _ _ E3 _.
      destruct (Hle f3) as [H|H]; [simpl; tauto| |]; unfold threshold in *; lra.
    + intros f1 f2 p1 t1 -> _ _ E1.
      destruct (Hle f1) as [H|H]; [simpl; tauto| |]; lra.
  - split; [|split; [|split]].
    + exists pre, f, post, t. repeat split; assumption.
    + intros Hle. assert (Hf : In f parsed).
      { rewrite Hp. apply in_or_app. right. left. reflexivity. }
      specialize (Hle f Hf). lra.
    + intros f1 f2 f3 p3 t3 E E1 E2 E3 Hc3. rewrite E in Hp.
      destruct pre as [|a [|b [|c pre]]]; simpl in Hp.
      * injection Hp as <- <-. specialize (H4 f3 (or_intror (or_introl eq_refl))). lra.
      * injection Hp as <- <- <-. specialize (H4 f3 (or_introl eq_refl)). lra.
      * injection Hp as <- <- <- <-. congruence.
      * apply (f_equal (@List.length _)) in Hp. simpl in Hp.
        rewrite length_app in Hp. simpl in Hp. lia.
    + intros f1 f2 p1 t1 E Hc1 E12 E1. rewrite E in Hp.
      destruct pre as [|a [|b pre]]; simpl in Hp.
      * injection Hp as <- <-. congruence.
      * injection Hp as <- <- <-. specialize (H3 f1 (or_introl eq_refl)). lra.
      * apply (f_equal (@List.length _)) in Hp. simpl in Hp.
        rewrite length_app in Hp. simpl in Hp. lia.
Qed.

Lemma C4_witness :
  existsb (exact "a b c d e f g h i j k l m n o p q r s t")
          [Returned (labelled "a b c d e");
           Returned (labelled "a b c d e f g");
           Returned (labelled "a b c d e f g h i j")] = false
  /\ find_pattern_in "a b c d e f g h i j k l m n o p q r s t"
       [Returned (labelled "a b c d e");
        Returned (labelled "a b c d e f g");
        Returned (labelled "a b c d e f g h i j")]
     = Some (labelled "a b c d e f g h i j").
Proof.
  split; [reflexivity|].
  apply (proj1 (proj2 (proj2
           (C4_running_best "a b c d e f g h i j k l m n o p q r s t"
              [Returned (labelled "a b c d e");
               Returned (labelled "a b c d e f g");
               Returned (labelled "a b c d e f g h i j")] eq_refl)))
           _ _ _ (labelled "a b c d e f g h i j") "a b c d e f g h i j"
           eq_refl);
    reflexivity.
Defined.

(** C4 as stated fails where a candidate is an exact match.  With the
    empty task no candidate scores above the threshold, and a candidate is
    returned; and of two candidates that both share all their words with
    the task, the later one is returned when it is the exact match. *)
Lemma C4_counterexample :
  ((forall g, In g [Returned (labelled "deploy"); Returned (labelled "")] ->
              (score_of "" g <= threshold)%Q)
   /\ find_pattern_in "" [Returned (labelled "deploy"); Returned (labelled "")]
      = Some (labelled ""))
  /\ ((score_of "setup project" (Returned (labelled "project setup"))
       == score_of "setup project" (Returned (labelled "setup project")))%Q
      /\ (threshold < score_of "setup project" (Returned (labelled "project setup")))%Q
      /\ find_pattern_in "setup project"
           [Returned (labelled "project setup");
            Returned (labelled "setup project")]
         = Some (labelled "setup project")).
Proof.
  split; [split|repeat split].
  - intros g [<-|[<-|[]]]; discriminate.
  - reflexivity.
Qed.

(** ** Properties of the validator *)

Lemma validate_returns (p : Pattern) :
  complexity_is_int p = true ->
  exists ws,
    validate_pattern p
    = Returned (mkValidation (match errors_of p with [] => true | _ => false end)
                             (errors_of p) ws)
    /\ complexity_warnings (match dict_get "complexity" (metadata_of p) with
                            | Some v => v
                            | None => YInt 0
                            end) = Returned ws.
Proof.
  unfold complexity_is_int, validate_pattern, errors_of, long_enough, complete,
    code_of.
  intros Hty.
  destruct (String.length _ <? 50); destruct (_ || _); simpl negb;
    rewrite ?app_nil_r, <- ?app_assoc;
    destruct (dict_get "complexity" (metadata_of p)) as [[| | | | |]|];
    try discriminate Hty; simpl; eexists; split; reflexivity.
Qed.

Lemma has_required_no_errors (p : Pattern) :
  has_required p = true ->
  flat_map (fun field =>
              if dict_has field (metadata_of p) then []
              else [("Missing required metadata: " ++ field)%string])
           required_metadata = [].
Proof.
  unfold has_required, required_metadata. simpl.
  rewrite !andb_true_iff. intros (-> & -> & -> & -> & _). reflexivity.
Qed.

(** C5. On a pattern whose [complexity] is absent or an integer,
    [validate_pattern] returns a result that is valid exactly when its
    list of errors is empty, whatever its warnings; a pattern without the
    [dependencies] key is invalid with an error naming it; a pattern whose
    trimmed code has 40 characters gets the error on the code length; and
    a pattern that passes the three error checks with complexity 7 is
    valid and carries one warning. *)
Theorem C5_validate (p : Pattern) :
  complexity_is_int p = true ->
  exists r,
    validate_pattern p = Returned r
    /\ (valid r = true <-> errors r = [])
    /\ (dict_has "dependencies" (metadata_of p) = false ->
        valid r = false
        /\ In "Missing required metadata: dependencies" (errors r))
    /\ (String.length (Py.strip (code_of p)) = 40 ->
        valid r = false /\ In "Pattern code too short" (errors r))
    /\ (has_required p = true -> long_enough p = true -> complete p = true ->
        dict_get "complexity" (metadata_of p) = Some (YInt 7) ->
        valid r = true /\ errors r = []
        /\ warnings r = ["Pattern complexity 7 exceeds recommended max 5"]).
Proof.
  intros Hty. destruct (validate_returns p Hty) as (ws & Hr & Hw).
  eexists. split; [exact Hr|]. cbn [valid errors warnings].
  assert (Hin : forall e, In e (errors_of p) ->
                          match errors_of p with [] => true | _ => false end = false).
  { intros e He. destruct (errors_of p); [destruct He|reflexivity]. }
  split; [|split; [|split]].
  - destruct (errors_of p); split; intros H; try reflexivity; discriminate.
  - intros Hd.
    assert (He : In "Missing required metadata: dependencies" (errors_of p)).
    { unfold errors_of, required_metadata. apply in_or_app. left. simpl.
      rewrite Hd. do 3 (apply in_or_app; right). left. reflexivity. }
    split; [apply (Hin _ He)|exact He].
  - intros Hl.
    assert (He : In "Pattern code too short" (errors_of p)).
    { unfold errors_of, long_enough. rewrite Hl. simpl.
      apply in_or_app. right. left. reflexivity. }
    split; [apply (Hin _ He)|exact He].
  - intros H1 H2 H3 H4.
    assert (He : errors_of p = []).
    { unfold errors_of. rewrite (has_required_no_errors p H1), H2, H3.
      reflexivity. }
    rewrite He. repeat split. rewrite H4 in Hw. simpl in Hw.
    injection Hw as <-. reflexivity.
Qed.

Lemma C5_witness :
  let p := mkPattern
             (Some [("task", YStr "create homepage"); ("complexity", YInt 7);
                    ("tags", YSeq []); ("dependencies", YSeq [])])
             None
             (Some "export default function Home() { return <main>Home</main>; }")
             None None None None in
  complexity_is_int p = true
  /\ exists r, validate_pattern p = Returned r /\ valid r = true
               /\ warnings r = ["Pattern complexity 7 exceeds recommended max 5"].
Proof.
  intros p. split; [reflexivity|].
  destruct (C5_validate p eq_refl) as (r & Hr & _ & _ & _ & H).
  exists r. split; [exact Hr|].
  destruct (H eq_refl eq_refl eq_refl eq_refl) as (Hv & _ & Hw).
  split; assumption.
Defined.

(** ** Properties of the dispatch *)

(** C8. The agent depends on the task through its lower-cased text only;
    a task that holds an infrastructure keyword as a substring goes to the
    infrastructure agent, whatever else it holds; otherwise a task that
    holds a frontend keyword, and by default any other task, goes to the
    frontend agent; so the task [setup nextjs project] in any casing goes
    to the agent of the infrastructure domain. *)
Theorem C8_determine_agent (task other : string) :
  Py.lower other = Py.lower task ->
  determine_agent other = determine_agent task
  /\ (mentions task "infrastructure" = true ->
      determine_agent task = "infrastructure")
  /\ (mentions task "infrastructure" = false ->
      mentions task "frontend_ui" = true ->
      determine_agent task = "frontend_ui")
  /\ (mentions task "infrastructure" = false ->
      mentions task "frontend_ui" = false ->
      determine_agent task = "frontend_ui")
  /\ (Py.lower task = "setup nextjs project" ->
      determine_agent other = "infrastructure"
      /\ option_map (@domain) (agents (determine_agent other))
         = Some "infrastructure").
Proof.
  intros Hl. unfold determine_agent, mentions. rewrite Hl.
  unfold keywords_of, agent_keywords. cbn [List.find fst snd String.eqb Ascii.eqb Bool.eqb first_agent].
  split; [reflexivity|]. split; [|split; [|split]].
  - intros ->. reflexivity.
  - intros -> ->. reflexivity.
  - intros -> ->. reflexivity.
  - intros ->. split; reflexivity.
Qed.

Lemma C8_witness :
  Py.lower "SETUP NextJS Project" = Py.lower "setup nextjs project"
  /\ determine_agent "SETUP NextJS Project" = "infrastructure".
Proof.
  split; [reflexivity|].
  apply (proj2 (proj2 (proj2 (proj2
           (C8_determine_agent "setup nextjs project" "SETUP NextJS Project"
                               eq_refl)))) eq_refl).
Defined.

Section Dispatch.

Variable yaml_entry : string -> yaml -> string.
Variable yaml_safe_load : string -> outcome yaml.
Variable py_repr : yaml -> string.
Variable repr_strs : list string -> string.
Variable isoformat : nat -> string.

Local Abbreviation format_md :=
  (format_pattern_markdown yaml_entry py_repr isoformat).
Local Abbreviation find_in_store := (find_pattern yaml_safe_load).
Local Abbreviation save := (save_pattern yaml_entry py_repr isoformat).
Local Abbreviation create_save :=
  (create_validate_save yaml_entry py_repr repr_strs isoformat).
Local Abbreviation body :=
  (execute_body yaml_entry yaml_safe_load py_repr repr_strs isoformat).
Local Abbreviation run :=
  (execute yaml_entry yaml_safe_load py_repr repr_strs isoformat).

Lemma same_logs_refl w : same_logs w w.
Proof. split; reflexivity. Qed.

Lemma same_logs_trans w1 w2 w3 :
  same_logs w1 w2 -> same_logs w2 w3 -> same_logs w1 w3.
Proof. unfold same_logs. intros [-> ->] [-> ->]. split; reflexivity. Qed.

Lemma format_logs (p : PatternObj) w :
  same_logs w (snd (format_md p w)) /\ exists text, fst (format_md p w) = Returned text.
Proof.
  unfold format_pattern_markdown, bindM, ret, now, setitem, alloc_dict.
  destruct (metadata p); simpl; (split; [split; reflexivity|eexists; reflexivity]).
Qed.

Lemma write_text_logs dir name content w :
  same_logs w (snd (write_text dir name content w)).
Proof.
  unfold write_text. destruct (dirs w dir); split; reflexivity.
Qed.

Lemma save_logs domain (p : PatternObj) task w :
  same_logs w (snd (save domain p task w)).
Proof.
  unfold save_pattern, bindM.
  destruct (format_logs p w) as [Hl [text Ht]].
  destruct (format_md p w) as [[t|e] w1]; simpl in *; [|exact Hl].
  pose proof (write_text_logs (patterns_dir domain) (slug task) t w1) as Hw.
  destruct (write_text _ _ _ w1) as [[[]|e] w2]; simpl in *;
    exact (same_logs_trans _ _ _ Hl Hw).
Qed.

Context {agent : Agent}.

(** [create_pattern] of the agent leaves the two logs alone. *)
Definition create_keeps_logs : Prop :=
  forall task w, same_logs w (snd (create_pattern task w)).

Lemma create_save_logs task w :
  create_keeps_logs -> same_logs w (snd (create_save task w)).
Proof.
  intros Hc. unfold create_validate_save, bindM.
  pose proof (Hc task w) as H1.
  destruct (create_pattern task w) as [[q|e] w1]; simpl in *; [|exact H1].
  destruct (validate_pattern (snapshot w1 q)) as [v|e]; [|exact H1].
  destruct (valid v); simpl; [|exact H1].
  pose proof (save_logs domain q task w1) as H2.
  destruct (save domain q task w1) as [[path|e] w2]; simpl in *;
    exact (same_logs_trans _ _ _ H1 H2).
Qed.

(** The record [log_metrics] appends, read back from the world after it. *)
Definition metrics_written (task : string) (w' : World) : Metrics :=
  mkMetrics (isoformat (pred (clock w'))) task domain true
            (List.length (glob_md domain w')).

Lemma log_metrics_then_ret task (c : string) w :
  exists w',
    bindM (log_metrics isoformat domain task true) (fun _ => ret c) w
    = (Returned c, w')
    /\ errors_log w' = errors_log w
    /\ metrics_log w' = (metrics_log w ++ [metrics_written task w'])%list.
Proof.
  eexists. split; [reflexivity|]. split; reflexivity.
Qed.

(** The [try] block: a normal return has written one metrics record and
    no error line, and an exception has written nothing. *)
Lemma body_logs task w :
  create_keeps_logs ->
  match body task w with
  | (Returned _, w') =>
      errors_log w' = errors_log w
      /\ metrics_log w' = (metrics_log w ++ [metrics_written task w'])%list
  | (Raised _, w') => same_logs w w'
  end.
Proof.
  intros Hc. unfold execute_body.
  unfold bindM at 1.
  assert (Hmiss :
    match bindM (q <~ create_save task ;; ret (inr q))
                (fun pattern : Pattern + PatternObj =>
                   _ <~ log_metrics isoformat domain task true ;;
                   ret match pattern with
                       | inl p => generate_from_pattern p task
                       | inr q => generate_from_pattern q task
                       end) w with
    | (Returned _, w') =>
        errors_log w' = errors_log w
        /\ metrics_log w' = (metrics_log w ++ [metrics_written task w'])%list
    | (Raised _, w') => same_logs w w'
    end).
  { unfold bindM at 1 2. pose proof (create_save_logs task w Hc) as [H1 H2].
    destruct (create_save task w) as [[q|e] w1]; simpl in H1, H2;
      [|split; assumption].
    unfold ret at 1.
    destruct (log_metrics_then_ret task (generate_from_pattern q task) w1)
      as (w2 & -> & He & Hm).
    rewrite He, Hm, H1, H2. split; reflexivity. }
  destruct (find_in_store domain task w) as [p|]; [|exact Hmiss].
  destruct (truthy p); [|exact Hmiss].
  unfold bindM at 1. unfold ret at 1.
  destruct (log_metrics_then_ret task (generate_from_pattern p task) w)
    as (w2 & -> & He & Hm).
  split; assumption.
Qed.

(** C6 (amended). An invocation of [execute] always returns a response.
    When the [try] block completes, on a match or after a creation, it has
    appended exactly one metrics record, with the time, the task, the
    domain, the reuse flag and the number of patterns, and no error line;
    when an error occurs, it has appended no metrics record and exactly
    one line to the error log, the time and the message. *)
Theorem C6_logs_per_invocation (task : string) (w : World) :
  create_keeps_logs ->
  exists response w',
    run task w = (Returned response, w')
    /\ match fst (body task w) with
       | Returned _ =>
           errors_log w' = errors_log w
           /\ metrics_log w'
              = (metrics_log w ++ [metrics_written task w'])%list
       | Raised e =>
           metrics_log w' = metrics_log w
           /\ errors_log w'
              = (errors_log w
                 ++ [(isoformat (pred (clock w')) ++ " - "
                      ++ error_message_of task e ++ "
")%string])%list
       end.
Proof.
  intros Hc. pose proof (body_logs task w Hc) as Hb. unfold execute.
  destruct (body task w) as [[c|e] w1]; simpl fst.
  - exists c, w1. split; [reflexivity|exact Hb].
  - destruct Hb as [Hm He]. eexists; eexists. split; [reflexivity|].
    simpl. rewrite Hm, He. split; reflexivity.
Qed.

(** A miss on a concrete agent goes to [create_pattern], which raises. *)
Lemma body_miss_raises task w :
  is_miss (find_in_store domain task w) = true ->
  forall e, create_pattern task = raise e ->
  body task w = (Raised e, w).
Proof.
  intros Hm e He. unfold execute_body, create_validate_save.
  unfold bindM at 1. unfold is_miss in Hm.
  destruct (find_in_store domain task w) as [p|].
  - apply negb_true_iff in Hm. rewrite Hm. rewrite He. reflexivity.
  - rewrite He. reflexivity.
Qed.

Lemma append_assoc_s (a b c : string) : (a ++ b) ++ c = a ++ b ++ c.
Proof. induction a as [|x a IH]; simpl; [reflexivity|rewrite IH; reflexivity]. Qed.

(** The response to an exception ends with the fallback line that names
    the pattern directory of the agent. *)
Lemma handle_error_response e task w :
  exists response w',
    handle_error isoformat domain e task w = (Returned response, w')
    /\ exists before,
         response = before ++ "You can create the pattern manually in: "
                    ++ patterns_dir domain ++ "
".
Proof.
  eexists; eexists. split; [reflexivity|].
  exists ("
## Error Encountered

" ++ error_message_of task e ++ "

### Troubleshooting Steps:
1. Check that the philosophy.md file exists
2. Verify the pattern directory structure
3. Try creating the pattern manually first

### Fallback Action:
").
  unfold error_message_of. rewrite !append_assoc_s. reflexivity.
Qed.

(** C9. On a concrete agent, frontend or infrastructure, a task for which
    the store yields no pattern makes [create_pattern] raise
    [NotImplementedError]; [execute] turns it into a returned response,
    the text of [handle_error], which names the pattern directory of the
    agent as the place for manual creation; no exception escapes. *)
Theorem C9_miss_is_handled (task : string) (w : World) :
  agent = FrontendUIAgent \/ agent = InfrastructureAgent ->
  is_miss (find_in_store domain task w) = true ->
  exists response w' e,
    run task w = (Returned response, w')
    /\ create_pattern task = raise e /\ exn_kind e = NotImplementedError
    /\ handle_error isoformat domain e task w = (Returned response, w')
    /\ exists before,
         response = before ++ "You can create the pattern manually in: "
                    ++ patterns_dir domain ++ "
".
Proof.
  intros Ha Hm.
  assert (He : exists e, create_pattern task = raise e
                         /\ exn_kind e = NotImplementedError).
  { destruct Ha as [-> | ->]; eexists; split; reflexivity. }
  destruct He as (e & He & Hk).
  destruct (handle_error_response e task w) as (response & w' & Hh & Hb).
  exists response, w', e. unfold execute.
  rewrite (body_miss_raises task w Hm e He).
  repeat split; assumption.
Qed.

End Dispatch.

Lemma concrete_agents_keep_logs :
  create_keeps_logs (agent := FrontendUIAgent)
  /\ create_keeps_logs (agent := InfrastructureAgent).
Proof. split; intros task w; split; reflexivity. Qed.

Lemma C6_witness :
  create_keeps_logs (agent := FrontendUIAgent)
  /\ exists response w',
       execute Sample.yaml_entry Sample.yaml_safe_load Sample.py_repr
               Sample.repr_strs Sample.isoformat (agent := FrontendUIAgent)
               "create homepage" Sample.empty_world
       = (Returned response, w')
       /\ metrics_log w' = []
       /\ List.length (errors_log w') = 1.
Proof.
  split; [intros task w; split; reflexivity|].
  destruct (C6_logs_per_invocation Sample.yaml_entry Sample.yaml_safe_load
              Sample.py_repr Sample.repr_strs Sample.isoformat
              (agent := FrontendUIAgent) "create homepage" Sample.empty_world
              (fun task w => conj eq_refl eq_refl))
    as (response & w' & Hrun & Hm & He).
  exists response, w'. split; [exact Hrun|]. split; [exact Hm|].
  rewrite He. reflexivity.
Defined.

(** C6 as stated fails on the error path: the frontend agent on the task
    [create homepage] with no pattern in its directory answers through
    [handle_error]; the metrics log gets no record, the error log one
    line. *)
Lemma C6_counterexample :
  let w' := snd (execute Sample.yaml_entry Sample.yaml_safe_load
                         Sample.py_repr Sample.repr_strs Sample.isoformat
                         (agent := FrontendUIAgent)
                         "create homepage" Sample.empty_world) in
  metrics_log Sample.empty_world = []
  /\ metrics_log w' = []
  /\ List.length (errors_log w') = 1.
Proof. repeat split. Qed.

Lemma C9_witness :
  is_miss (find_pattern Sample.yaml_safe_load "frontend" "create homepage"
                        Sample.empty_world) = true
  /\ exists response w',
       execute Sample.yaml_entry Sample.yaml_safe_load Sample.py_repr
               Sample.repr_strs Sample.isoformat (agent := FrontendUIAgent)
               "create homepage" Sample.empty_world
       = (Returned response, w')
       /\ exists before,
            response = before ++ "You can create the pattern manually in: "
                       ++ ".ai/patterns/frontend" ++ "
".
Proof.
  split; [reflexivity|].
  destruct (C9_miss_is_handled Sample.yaml_entry Sample.yaml_safe_load
              Sample.py_repr Sample.repr_strs Sample.isoformat
              (agent := FrontendUIAgent) "create homepage" Sample.empty_world
              (or_introl eq_refl) eq_refl)
    as (response & w' & e & Hrun & _ & _ & _ & Hb).
  exists response, w'. split; [exact Hrun|exact Hb].
Defined.

(** ** Properties of the codec: stamping and key order *)

Lemma dict_get_set_same k v m : dict_get k (dict_set k v m) = Some v.
Proof.
  induction m as [|[k' v'] m IH]; simpl.
  - rewrite String.eqb_refl. reflexivity.
  - destruct (String.eqb k k') eqn:E; simpl; rewrite ?E; [reflexivity|exact IH].
Qed.

Lemma dict_get_set_other k k' v m :
  String.eqb k' k = false -> dict_get k' (dict_set k v m) = dict_get k' m.
Proof.
  intros Hne. induction m as [|[k0 v0] m IH]; simpl.
  - rewrite Hne. reflexivity.
  - destruct (String.eqb k k0) eqn:E; simpl.
    + apply String.eqb_eq in E. subst k0. rewrite Hne. reflexivity.
    + destruct (String.eqb k' k0); [reflexivity|exact IH].
Qed.

Lemma stamped_created iso n m :
  dict_get "created" (stamped iso n m) = Some (YStr (iso n)).
Proof.
  unfold stamped. rewrite !dict_get_set_other by reflexivity.
  apply dict_get_set_same.
Qed.

Lemma stamped_updated iso n m :
  dict_get "updated" (stamped iso n m) = Some (YStr (iso (S n))).
Proof.
  unfold stamped. rewrite dict_get_set_other by reflexivity.
  apply dict_get_set_same.
Qed.

Lemma stamped_version iso n m :
  dict_get "version" (stamped iso n m) = Some (YStr "1.0.0").
Proof. unfold stamped. apply dict_get_set_same. Qed.

Lemma stamped_other iso n m k :
  injected k = false -> dict_get k (stamped iso n m) = dict_get k m.
Proof.
  unfold injected, stamped. rewrite !orb_false_iff. intros [[H1 H2] H3].
  rewrite !dict_get_set_other by assumption. reflexivity.
Qed.

Lemma nth_heap_update_same a f h :
  a < List.length h -> nth a (heap_update a f h) [] = f (nth a h []).
Proof.
  revert a. induction h as [|m h IH]; intros [|a] Ha; simpl in *; try lia.
  - reflexivity.
  - apply IH. lia.
Qed.

Lemma nth_heap_update_other a b f h :
  a <> b -> nth b (heap_update a f h) [] = nth b h [].
Proof.
  revert a b. induction h as [|m h IH]; intros [|a] [|b] Hne; simpl;
    try reflexivity; try congruence.
  apply IH. congruence.
Qed.

Lemma length_heap_update a f h :
  List.length (heap_update a f h) = List.length h.
Proof.
  revert a. induction h as [|m h IH]; intros [|a]; simpl; auto.
Qed.

Section Serialize.

Variable yaml_entry : string -> yaml -> string.
Variable py_repr : yaml -> string.
Variable isoformat : nat -> string.

Local Abbreviation format_md :=
  (format_pattern_markdown yaml_entry py_repr isoformat).
Local Abbreviation dump := (yaml_dump yaml_entry).
Local Abbreviation render_md := (render py_repr).

(** Serializing a pattern whose metadata [dict] is at address [a]: the
    three stores go into that [dict], and the text is rendered from it. *)
Lemma format_on_heap (p : PatternObj) (a : nat) (w : World) :
  metadata p = Some a -> a < List.length (heap w) ->
  exists w',
    format_md p w
    = (Returned (render_md (deref a w') (dump (deref a w')) p), w')
    /\ deref a w' = stamped isoformat (clock w) (deref a w)
    /\ (forall b, b <> a -> deref b w' = deref b w)
    /\ clock w' = S (S (clock w))
    /\ dirs w' = dirs w /\ same_logs w w'.
Proof.
  intros Hm Ha. unfold format_pattern_markdown. rewrite Hm.
  eexists. split; [reflexivity|].
  unfold deref, store_item, tick, stamped; simpl.
  split; [|split; [|repeat split]].
  - rewrite !nth_heap_update_same by (rewrite ?length_heap_update; exact Ha).
    reflexivity.
  - intros b Hb. rewrite !nth_heap_update_other by congruence. reflexivity.
Qed.

(** Serializing a pattern without a ["metadata"] entry: the stores go
    into a fresh [dict], and the [dict]s that existed are as they were. *)
Lemma format_fresh (p : PatternObj) (w : World) :
  metadata p = None ->
  exists w',
    let m' := stamped isoformat (clock w) [] in
    format_md p w = (Returned (render_md m' (dump m') p), w')
    /\ (forall b, b < List.length (heap w) -> deref b w' = deref b w)
    /\ clock w' = S (S (clock w))
    /\ dirs w' = dirs w /\ same_logs w w'.
Proof.
  intros Hm. unfold format_pattern_markdown. rewrite Hm.
  eexists. split.
  - unfold bindM, alloc_dict, now, setitem, ret, deref, store_item, tick.
    simpl. rewrite !nth_heap_update_same
      by (rewrite ?length_heap_update, length_app; simpl; lia).
    rewrite app_nth2, Nat.sub_diag by lia. reflexivity.
  - unfold deref, store_item, tick, alloc_dict; simpl.
    split; [|repeat split].
    intros b Hb. rewrite !nth_heap_update_other by lia.
    apply app_nth1. exact Hb.
Qed.

Lemma insert_entry_perm e l : Permutation (insert_entry e l) (e :: l).
Proof.
  induction l as [|e' r IH]; simpl; [apply Permutation_refl|].
  destruct (String.leb (fst e) (fst e')); [apply Permutation_refl|].
  apply Permutation_trans with (e' :: e :: r);
    [apply perm_skip, IH|apply perm_swap].
Qed.

Lemma insert_entry_hd a e l :
  HdRel key_le a l -> key_le a e -> HdRel key_le a (insert_entry e l).
Proof.
  intros Hl He. destruct l as [|e' r]; simpl; [constructor; exact He|].
  destruct (String.leb (fst e) (fst e')); constructor;
    [exact He|inversion Hl; assumption].
Qed.

Lemma insert_entry_sorted e l :
  Sorted key_le l -> Sorted key_le (insert_entry e l).
Proof.
  induction 1 as [|e' r Hs IH Hh]; simpl; [repeat constructor|].
  destruct (String.leb (fst e) (fst e')) eqn:E.
  - constructor; [constructor; assumption|constructor; exact E].
  - constructor; [exact IH|]. apply insert_entry_hd; [exact Hh|].
    unfold key_le. destruct (String.leb_total (fst e) (fst e')); congruence.
Qed.

Lemma sort_keys_perm m : Permutation (sort_keys m) m.
Proof.
  induction m as [|e m IH]; simpl; [constructor|].
  apply Permutation_trans with (e :: sort_keys m);
    [apply insert_entry_perm|apply perm_skip, IH].
Qed.

Lemma sort_keys_sorted m : Sorted key_le (sort_keys m).
Proof.
  induction m as [|e m IH]; simpl; [constructor|].
  apply insert_entry_sorted, IH.
Qed.

Lemma dict_set_not_nil k v m : dict_set k v m <> [].
Proof.
  destruct m as [|[k' v'] m]; simpl; [discriminate|].
  destruct (String.eqb k k'); discriminate.
Qed.

Lemma dump_stamped n m :
  dump (stamped isoformat n m)
  = String.concat "" (map (fun e => yaml_entry (fst e) (snd e))
                          (sort_keys (stamped isoformat n m))).
Proof.
  unfold yaml_dump, stamped.
  destruct (dict_set "version" _ _) eqn:E; [|reflexivity].
  exfalso. exact (dict_set_not_nil _ _ _ E).
Qed.

(** The text and the world after serialization, in both cases. *)
Lemma format_text (p : PatternObj) (w : World) :
  well_addressed w p ->
  exists w',
    let m' := stamped isoformat (clock w) (metadata_at w p) in
    format_md p w = (Returned (render_md m' (dump m') p), w')
    /\ metadata_at w' p
       = match metadata p with Some _ => m' | None => [] end.
Proof.
  unfold well_addressed, metadata_at. intros Ha.
  destruct (metadata p) as [a|] eqn:Em.
  - destruct (format_on_heap p a w Em Ha) as (w' & Hf & Hd & _).
    exists w'. simpl. rewrite Hf, Hd. split; reflexivity.
  - destruct (format_fresh p w Em) as (w' & Hf & _).
    exists w'. split; [exact Hf|reflexivity].
Qed.

(** C7 (amended). Every call of [format_pattern_markdown] stamps
    [created] and [updated] with the two readings of the clock it takes
    and [version] with 1.0.0, keeps the other entries, and emits a text
    that opens with a line of three dashes, then the block-style dump of
    the stamped mapping with its entries in sorted key order, then three
    dashes again. *)
Theorem C7_serialize_frontmatter (p : PatternObj) (w : World) :
  well_addressed w p ->
  exists m' rest w',
    format_md p w = (Returned ("---
" ++ dump m' ++ "---
" ++ rest), w')
    /\ dict_get "created" m' = Some (YStr (isoformat (clock w)))
    /\ dict_get "updated" m' = Some (YStr (isoformat (S (clock w))))
    /\ dict_get "version" m' = Some (YStr "1.0.0")
    /\ (forall k, injected k = false ->
                  dict_get k m' = dict_get k (metadata_at w p))
    /\ dump m' = String.concat "" (map (fun e => yaml_entry (fst e) (snd e))
                                       (sort_keys m'))
    /\ Permutation (sort_keys m') m' /\ Sorted key_le (sort_keys m').
Proof.
  intros Ha. destruct (format_text p w Ha) as (w' & Hf & _).
  exists (stamped isoformat (clock w) (metadata_at w p)).
  eexists. exists w'. split; [rewrite Hf; unfold render; reflexivity|].
  split; [apply stamped_created|]. split; [apply stamped_updated|].
  split; [apply stamped_version|].
  split; [intros k Hk; apply stamped_other, Hk|].
  split; [apply dump_stamped|].
  split; [apply sort_keys_perm|apply sort_keys_sorted].
Qed.

Lemma heap_update_fresh (f : Mapping -> Mapping) (h : list Mapping)
      (m : Mapping) :
  heap_update (List.length h) f (h ++ [m]) = (h ++ [f m])%list.
Proof. induction h as [|x h IH]; simpl; [reflexivity|rewrite IH; reflexivity]. Qed.

(** The heap after serializing a pattern without a ["metadata"] entry:
    one more [dict], which holds the three stamps. *)
Lemma format_fresh_heap (p : PatternObj) (w : World) :
  metadata p = None ->
  heap (snd (format_md p w))
  = (heap w ++ [stamped isoformat (clock w) []])%list.
Proof.
  intros Hm. unfold format_pattern_markdown. rewrite Hm.
  unfold bindM, alloc_dict, now, setitem, ret, store_item, tick, stamped.
  simpl. rewrite !heap_update_fresh. reflexivity.
Qed.

(** A pattern that [validate_pattern] accepts has a metadata mapping, so
    through [execute] only patterns with one are serialized. *)
Lemma valid_pattern_has_metadata (p : Pattern) (v : Validation) :
  validate_pattern p = Returned v -> valid v = true -> metadata p <> None.
Proof.
  intros H Hv Hm. unfold validate_pattern, metadata_of in H.
  rewrite Hm in H. cbn [dict_get complexity_warnings bind] in H.
  injection H as <-. cbn [valid] in Hv.
  unfold required_metadata in Hv. cbn [flat_map dict_has dict_get] in Hv.
  destruct (String.length _ <? 50), (_ || _) in Hv; discriminate Hv.
Qed.

(** C10 (amended). When the pattern has a metadata mapping, the call
    writes [created], [updated] and [version] into that very mapping: the
    caller, reading its pattern after the call, finds the three keys, with
    the other entries and the other mappings as they were.  When the
    pattern has no metadata entry, the three keys go into a fresh mapping:
    the pattern has no metadata after the call either, the mappings that
    existed are as they were, and the heap has one more, which holds the
    three keys and nothing else. *)
Theorem C10_serialize_mutates_metadata (p : PatternObj) (w : World) :
  well_addressed w p ->
  exists text w',
    format_md p w = (Returned text, w')
    /\ (forall a, metadata p = Some a ->
          metadata (snapshot w' p) = Some (deref a w')
          /\ dict_get "created" (deref a w')
             = Some (YStr (isoformat (clock w)))
          /\ dict_get "updated" (deref a w')
             = Some (YStr (isoformat (S (clock w))))
          /\ dict_get "version" (deref a w') = Some (YStr "1.0.0")
          /\ (forall k, injected k = false ->
                        dict_get k (deref a w') = dict_get k (deref a w))
          /\ (forall b, b <> a -> deref b w' = deref b w))
    /\ (metadata p = None ->
          metadata (snapshot w' p) = None
          /\ heap w'
             = (heap w
                ++ [[("created", YStr (isoformat (clock w)));
                     ("updated", YStr (isoformat (S (clock w))));
                     ("version", YStr "1.0.0")]])%list
          /\ (forall b, b < List.length (heap w) -> deref b w' = deref b w)).
Proof.
  unfold well_addressed. intros Ha.
  destruct (metadata p) as [a|] eqn:Hm.
  - destruct (format_on_heap p a w Hm Ha) as (w' & Hf & Hd & Ho & _).
    eexists. exists w'. split; [exact Hf|]. split; [|discriminate].
    intros a' E. injection E as <-.
    split; [unfold snapshot; rewrite Hm; reflexivity|]. rewrite Hd.
    split; [apply stamped_created|]. split; [apply stamped_updated|].
    split; [apply stamped_version|].
    split; [intros k Hk; apply stamped_other, Hk|exact Ho].
  - destruct (format_fresh p w Hm) as (w' & Hf & Hframe & _).
    pose proof (format_fresh_heap p w Hm) as Hh. cbv zeta in Hf.
    rewrite Hf in Hh. cbn [snd] in Hh.
    eexists. exists w'. split; [exact Hf|]. split; [discriminate|].
    intros _. split; [unfold snapshot; rewrite Hm; reflexivity|].
    split; [exact Hh|exact Hframe].
Qed.

End Serialize.

Lemma C7_witness :
  well_addressed Sample.homepage_world Sample.homepage
  /\ exists m' rest w',
       format_pattern_markdown Sample.yaml_entry Sample.py_repr
                               Sample.isoformat Sample.homepage
                               Sample.homepage_world
       = (Returned ("---
" ++ yaml_dump Sample.yaml_entry m' ++ "---
" ++ rest), w')
       /\ dict_get "version" m' = Some (YStr "1.0.0")
       /\ Sorted key_le (sort_keys m').
Proof.
  split; [exact (le_n 1)|].
  destruct (C7_serialize_frontmatter Sample.yaml_entry Sample.py_repr
              Sample.isoformat Sample.homepage Sample.homepage_world (le_n 1))
    as (m' & rest & w' & Hf & _ & _ & Hv & _ & _ & _ & Hs).
  exists m', rest, w'. repeat split; assumption.
Defined.

(** C7 as stated fails on the order of the keys: the mapping holds
    [task] first and the three stamps last, and the dump lists the keys
    in sorted order, [complexity] first and [task] fifth. *)
Lemma C7_counterexample :
  let w' := snd (format_pattern_markdown Sample.yaml_entry Sample.py_repr
                   Sample.isoformat Sample.homepage Sample.homepage_world) in
  keys (deref 0 w')
  = ["task"; "complexity"; "tags"; "dependencies"; "created"; "updated";
     "version"]
  /\ yaml_dump Sample.yaml_entry (deref 0 w')
     = "complexity: 2
created: '2024-05-01T10:00:00.000000'
dependencies: []
tags: []
task: create homepage
updated: '2024-05-01T10:00:00.000001'
version: 1.0.0
"
  /\ keys (sort_keys (deref 0 w')) <> keys (deref 0 w').
Proof. repeat split. discriminate. Qed.

Lemma C10_witness :
  (well_addressed Sample.homepage_world Sample.homepage
   /\ exists text w',
        format_pattern_markdown Sample.yaml_entry Sample.py_repr
                                Sample.isoformat Sample.homepage
                                Sample.homepage_world
        = (Returned text, w')
        /\ dict_get "version" (metadata_of (snapshot w' Sample.homepage))
           = Some (YStr "1.0.0"))
  /\ (let p : PatternObj :=
        mkPattern None None (Some "export const Home = 1;") None None None
                  None in
      well_addressed Sample.homepage_world p
      /\ exists text w',
           format_pattern_markdown Sample.yaml_entry Sample.py_repr
                                   Sample.isoformat p Sample.homepage_world
           = (Returned text, w')
           /\ metadata (snapshot w' p) = None
           /\ List.length (heap w') = 2).
Proof.
  split.
  - split; [exact (le_n 1)|].
    destruct (C10_serialize_mutates_metadata Sample.yaml_entry Sample.py_repr
                Sample.isoformat Sample.homepage Sample.homepage_world
                (le_n 1))
      as (text & w' & Hf & Hsome & _).
    destruct (Hsome 0 eq_refl) as (Hs & _ & _ & Hv & _).
    exists text, w'. split; [exact Hf|].
    unfold metadata_of. rewrite Hs. exact Hv.
  - intros p. split; [exact I|].
    destruct (C10_serialize_mutates_metadata Sample.yaml_entry Sample.py_repr
                Sample.isoformat p Sample.homepage_world I)
      as (text & w' & Hf & _ & Hnone).
    destruct (Hnone eq_refl) as (Hs & Hh & _).
    exists text, w'. split; [exact Hf|]. split; [exact Hs|].
    rewrite Hh. reflexivity.
Defined.

(** C10 as stated fails for a pattern without a ["metadata"] entry: the
    three keys go into a fresh [dict] that the pattern does not hold, and
    the pattern has no metadata after the call either. *)
Lemma C10_counterexample :
  let p : PatternObj :=
    mkPattern None (Some "A landing page.") (Some "export const Home = 1;")
              None None None None in
  let r := format_pattern_markdown Sample.yaml_entry Sample.py_repr
             Sample.isoformat p Sample.homepage_world in
  (exists text, fst r = Returned text)
  /\ metadata (snapshot (snd r) p) = None
  /\ dict_has "created" (metadata_of (snapshot (snd r) p)) = false
  /\ deref 0 (snd r) = Sample.homepage_metadata.
Proof. repeat split. eexists. reflexivity. Qed.

(** ** Searching in texts built by concatenation *)

Lemma length_append_s (a b : string) :
  String.length (a ++ b) = String.length a + String.length b.
Proof. induction a as [|x a IH]; simpl; [reflexivity|rewrite IH; reflexivity]. Qed.

Lemma append_nil_s (a : string) : a ++ "" = a.
Proof. induction a as [|x a IH]; simpl; [reflexivity|rewrite IH; reflexivity]. Qed.

Lemma startswith_app (n r : string) : Py.startswith n (n ++ r) = true.
Proof.
  induction n as [|x n IH]; simpl; [reflexivity|].
  rewrite Ascii.eqb_refl. exact IH.
Qed.

Lemma drop_app (a b : string) : Py.drop (String.length a) (a ++ b) = b.
Proof. induction a as [|x a IH]; simpl; [destruct b; reflexivity|exact IH]. Qed.

Lemma take_app (a b : string) : Py.take (String.length a) (a ++ b) = a.
Proof.
  induction a as [|x a IH]; simpl; [destruct b; reflexivity|].
  rewrite IH. reflexivity.
Qed.

Lemma drop_add (n k : nat) (s : string) :
  Py.drop (n + k) s = Py.drop k (Py.drop n s).
Proof.
  revert s. induction n as [|n IH]; intros s; simpl; [reflexivity|].
  destruct s as [|x s]; [destruct k; reflexivity|apply IH].
Qed.

(** A match that starts in [u] and is cut by [b] stays inside [u], unless
    the pattern holds [b]. *)
Lemma startswith_sep (n u : string) (b : ascii) (r : string) :
  Py.startswith n (u ++ String b r) = true ->
  Py.startswith n u = true \/ Py.has_char b n = true.
Proof.
  revert u. induction n as [|x n IH]; intros u; [left; reflexivity|].
  destruct u as [|y u]; simpl.
  - intros H. apply andb_true_iff in H. destruct H as [H _].
    right. rewrite H. reflexivity.
  - intros H. apply andb_true_iff in H. destruct H as [H1 H2].
    destruct (IH u H2) as [H|H].
    + left. rewrite H1, H. reflexivity.
    + right. rewrite H. apply orb_true_r.
Qed.

Lemma find_none_inv (n s : string) :
  Py.find n s = None -> Py.startswith n s = false.
Proof.
  destruct s as [|x s]; simpl; destruct (Py.startswith n _);
    [discriminate|reflexivity|discriminate|reflexivity].
Qed.

Lemma find_none_tail (n : string) (x : ascii) (s : string) :
  Py.find n (String x s) = None -> Py.find n s = None.
Proof.
  simpl. destruct (Py.startswith n (String x s)); [discriminate|].
  destruct (Py.find n s); [discriminate|reflexivity].
Qed.

Lemma find_cons (n : string) (x : ascii) (s : string) :
  Py.startswith n (String x s) = false ->
  Py.find n (String x s) = option_map S (Py.find n s).
Proof. intros H. simpl Py.find. rewrite H. reflexivity. Qed.

(** A field that does not hold the pattern, followed by a character the
    pattern does not hold, is skipped whole. *)
Lemma find_skip_field (n a : string) (b : ascii) (r : string) :
  Py.has_char b n = false -> Py.find n a = None ->
  Py.find n (a ++ String b r)
  = option_map (fun i => String.length a + 1 + i) (Py.find n r).
Proof.
  intros Hb. induction a as [|x a IH]; intros Ha.
  - simpl append. apply find_none_inv in Ha.
    assert (Hs : Py.startswith n (String b r) = false).
    { destruct (Py.startswith n (String b r)) eqn:E; [|reflexivity].
      destruct (startswith_sep n "" b r E) as [H|H]; congruence. }
    rewrite (find_cons _ _ _ Hs). destruct (Py.find n r); reflexivity.
  - assert (Hs : Py.startswith n (String x a ++ String b r) = false).
    { destruct (Py.startswith n (String x a ++ String b r)) eqn:E;
        [|reflexivity].
      apply find_none_inv in Ha.
      destruct (startswith_sep n (String x a) b r E) as [H|H]; congruence. }
    change (String x a ++ String b r) with (String x (a ++ String b r)) in *.
    rewrite (find_cons _ _ _ Hs), (IH (find_none_tail _ _ _ Ha)).
    destruct (Py.find n r); reflexivity.
Qed.

Lemma find_here (n s : string) :
  Py.startswith n s = true -> Py.find n s = Some 0.
Proof. intros H. destruct s; simpl; rewrite H; reflexivity. Qed.

Lemma first_at_nil (sub : string) : first_at sub "".
Proof. intros rest. simpl. apply find_here, startswith_app. Qed.

Lemma first_at_cons (sub : string) (c : ascii) (pre : string) :
  (forall rest, Py.startswith sub (String c (pre ++ sub ++ rest)) = false) ->
  first_at sub pre -> first_at sub (String c pre).
Proof.
  intros Hc Hp rest. simpl append.
  rewrite (find_cons _ _ _ (Hc rest)), (Hp rest). reflexivity.
Qed.

Lemma first_at_field (sub a : string) (b : ascii) (pre : string) :
  Py.has_char b sub = false -> Py.find sub a = None ->
  first_at sub pre -> first_at sub (a ++ String b pre).
Proof.
  intros Hb Ha Hp rest. rewrite append_assoc_s. simpl append.
  rewrite (find_skip_field _ _ _ _ Hb Ha), (Hp rest).
  simpl. rewrite length_append_s. simpl. f_equal. lia.
Qed.

(** When no match can start in [a] and run over the end of [a] into the
    pattern that follows, the first match in [a ++ n ++ r] is that
    pattern. *)
Lemma find_at_end (n tail : string) :
  (forall x u r, Py.startswith n (String x u ++ n ++ r) = true ->
                 Py.startswith n (String x u ++ tail) = true) ->
  forall a r, Py.find n (a ++ tail) = None ->
              Py.find n (a ++ n ++ r) = Some (String.length a).
Proof.
  intros Hn. induction a as [|x a IH]; intros r Ha.
  - simpl. apply find_here, startswith_app.
  - assert (Hs : Py.startswith n (String x a ++ n ++ r) = false).
    { destruct (Py.startswith n (String x a ++ n ++ r)) eqn:E; [|reflexivity].
      apply Hn in E. apply find_none_inv in Ha. congruence. }
    change (String x a ++ n ++ r) with (String x (a ++ n ++ r)) in *.
    change (String x a ++ tail) with (String x (a ++ tail)) in Ha.
    rewrite (find_cons _ _ _ Hs), (IH r (find_none_tail _ _ _ Ha)).
    reflexivity.
Qed.

(** Reads a conjunction of character tests as equations. *)
Ltac chars_of H :=
  repeat (let E := fresh "E" in
          apply andb_true_iff in H; destruct H as [E H];
          apply Ascii.eqb_eq in E).

Lemma fence_line_no_straddle x u r :
  Py.startswith "
```" (String x u ++ "
```" ++ r) = true ->
  Py.startswith "
```" (String x u ++ "") = true.
Proof.
  destruct u as [|c1 [|c2 [|c3 u]]]; cbn [Py.startswith append]; intros H;
    [chars_of H; congruence ..|exact H].
Qed.

Lemma dashes_line_no_straddle x u r :
  Py.startswith "
---
" (String x u ++ "
---
" ++ r) = true ->
  Py.startswith "
---
" (String x u ++ "
") = true.
Proof.
  destruct u as [|c1 [|c2 [|c3 [|c4 u]]]]; cbn [Py.startswith append];
    intros H; [chars_of H; try congruence ..|exact H].
  subst. reflexivity.
Qed.

(** ** The fenced code block *)

Lemma search_unfold (s : string) :
  search_code_block s
  = match code_block_at s with
    | Some g => Some g
    | None => match s with
              | EmptyString => None
              | String _ r => search_code_block r
              end
    end.
Proof. destruct s; reflexivity. Qed.

Lemma search_here (x g : string) :
  code_block_at x = Some g -> search_code_block x = Some g.
Proof. intros H. rewrite search_unfold, H. reflexivity. Qed.

Lemma search_cons (c : ascii) (s : string) :
  code_block_at (String c s) = None ->
  search_code_block (String c s) = search_code_block s.
Proof. intros H. rewrite search_unfold, H. reflexivity. Qed.

Lemma no_block_nil : no_block_in "".
Proof. intros x g H. simpl. apply search_here, H. Qed.

Lemma no_block_cons (c : ascii) (pre : string) :
  Ascii.eqb "`" c = false -> no_block_in pre -> no_block_in (String c pre).
Proof.
  intros Hc Hp x g Hx. simpl append. rewrite search_cons; [apply Hp, Hx|].
  unfold code_block_at. cbn [Py.startswith]. rewrite Hc. reflexivity.
Qed.

Lemma code_block_needs_fence (s : string) :
  Py.startswith "```" s = false -> code_block_at s = None.
Proof. unfold code_block_at. intros ->. reflexivity. Qed.

Lemma no_block_field (a : string) (b : ascii) (pre : string) :
  Py.has_char b "```" = false -> Py.find "```" a = None ->
  no_block_in (String b pre) -> no_block_in (a ++ String b pre).
Proof.
  intros Hb Ha Hp. induction a as [|y a IH]; [exact Hp|].
  intros x g Hx.
  assert (Hs : Py.startswith "```" (String y a ++ String b (pre ++ x)) = false).
  { destruct (Py.startswith "```" _) eqn:E; [|reflexivity].
    apply find_none_inv in Ha.
    destruct (startswith_sep _ _ _ _ E) as [H|H]; congruence. }
  rewrite append_assoc_s. simpl append.
  change (String y a ++ String b (pre ++ x))
    with (String y (a ++ String b (pre ++ x))) in Hs.
  rewrite (search_cons _ _ (code_block_needs_fence _ Hs)).
  specialize (IH (find_none_tail _ _ _ Ha) x g Hx).
  rewrite append_assoc_s in IH. exact IH.
Qed.

Lemma drop_while_word (l : string) (r : string) :
  all_word l = true ->
  drop_while Py.isword (l ++ String "010" r) = String "010" r.
Proof.
  induction l as [|c l IH]; simpl; [reflexivity|].
  intros H. apply andb_true_iff in H. destruct H as [-> H]. apply IH, H.
Qed.

(** The block the serializer writes is read back whole. *)
Lemma code_block_fence (l c r : string) :
  all_word l = true -> Py.find "
```" c = None ->
  code_block_at ("```" ++ l ++ "
" ++ c ++ "
```" ++ r) = Some c.
Proof.
  intros Hl Hc. unfold code_block_at.
  cbn [Py.startswith append Py.drop Ascii.eqb Bool.eqb andb].
  rewrite (drop_while_word l _ Hl).
  assert (Hf := find_at_end _ "" fence_line_no_straddle c r).
  rewrite append_nil_s in Hf. specialize (Hf Hc).
  assert (Ht := take_app c ("
```" ++ r)).
  cbn [append] in Hf, Ht. rewrite Hf, Ht. reflexivity.
Qed.

(** ** Sections between markers *)

Lemma length_lstrip_le (s : string) :
  String.length (Py.lstrip s) <= String.length s.
Proof.
  induction s as [|c s IH]; simpl; [lia|].
  destruct (Py.isspace c); simpl; lia.
Qed.

Lemma length_rstrip_le (s : string) :
  String.length (Py.rstrip s) <= String.length s.
Proof.
  induction s as [|c s IH]; simpl; [lia|].
  destruct (Py.rstrip s); [destruct (Py.isspace c)|]; simpl in *; lia.
Qed.

(** A text that [strip] leaves alone is empty or opens with a character
    that is not a space, and [rstrip] leaves it alone too. *)
Lemma strip_fixed (s : string) :
  Py.strip s = s ->
  Py.rstrip s = s
  /\ (s = "" \/ exists c r, s = String c r /\ Py.isspace c = false).
Proof.
  unfold Py.strip. destruct s as [|c r]; [intros _; split; auto|].
  simpl Py.lstrip. destruct (Py.isspace c) eqn:E; intros H.
  - exfalso. apply (f_equal String.length) in H.
    pose proof (length_rstrip_le (Py.lstrip r)).
    pose proof (length_lstrip_le r). simpl in H. lia.
  - split; [exact H|]. right. exists c, r. split; [reflexivity|exact E].
Qed.

Lemma rstrip_pad (s : string) : Py.rstrip (s ++ "

") = Py.rstrip s.
Proof.
  induction s as [|c s IH]; [reflexivity|].
  simpl append. simpl Py.rstrip. rewrite IH. reflexivity.
Qed.

Lemma strip_pad (s : string) : Py.strip s = s -> Py.strip ("

" ++ s ++ "

") = s.
Proof.
  intros H. destruct (strip_fixed s H) as [Hr [->|(c & r & -> & Hc)]];
    [reflexivity|].
  unfold Py.strip. cbn [append Py.lstrip]. 
  change (Py.isspace "010") with true. cbn iota.
  rewrite Hc. change (String c (r ++ "

")) with (String c r ++ "

").
  rewrite rstrip_pad. exact Hr.
Qed.

(** [extract_section] between a start marker found right after [pre] and
    an end marker found right after [mid]. *)
Lemma extract_between (pre start mid : string) (c : ascii) (e post : string) :
  Py.find start (pre ++ start ++ mid ++ String c e ++ post)
  = Some (String.length pre) ->
  Py.find (String c e) (mid ++ String c e ++ post) = Some (String.length mid) ->
  extract_section (pre ++ start ++ mid ++ String c e ++ post) start
                  (Some (String c e))
  = Py.strip mid.
Proof.
  intros H1 H2. unfold extract_section, Py.find_from, Py.slice. rewrite H1.
  assert (Hlen : (String.length (pre ++ start ++ mid ++ String c e ++ post)
                  <? String.length pre + String.length start) = false).
  { apply Nat.ltb_ge. rewrite !length_append_s. lia. }
  rewrite Hlen, drop_add, drop_app, drop_app, H2. cbn [option_map].
  replace (String.length pre + String.length start + String.length mid
           - (String.length pre + String.length start))%nat
    with (String.length mid) by lia.
  rewrite take_app. reflexivity.
Qed.

(** The opening of a document is split at the second line of dashes. *)
Lemma match_frontmatter_dump (fm body : string) :
  Py.find "
---
" (fm ++ "
") = None ->
  match_frontmatter ("---
" ++ (fm ++ "
") ++ "---
" ++ body) = Some (fm, body).
Proof.
  intros H. unfold match_frontmatter. rewrite startswith_app.
  assert (Hf := find_at_end _ _ dashes_line_no_straddle fm body H).
  assert (Ht := take_app fm ("
---
" ++ body)).
  assert (Hd := drop_app fm ("
---
" ++ body)).
  cbn [Py.drop]. rewrite append_assoc_s.
  cbn [append] in *. rewrite Hf, Ht, drop_add, Hd. reflexivity.
Qed.

(** ** Reading a stored text *)

Lemma has_char_app (c : ascii) (a b : string) :
  Py.has_char c (a ++ b) = Py.has_char c a || Py.has_char c b.
Proof.
  induction a as [|x a IH]; [reflexivity|].
  cbn [append Py.has_char]. rewrite IH. apply orb_assoc.
Qed.

Lemma no_cr_app (a b : string) : no_cr (a ++ b) = no_cr a && no_cr b.
Proof. unfold no_cr. rewrite has_char_app. apply negb_orb. Qed.

(** A stretch without carriage return is read as it is, whatever
    follows it. *)
Lemma read_text_app (a b : string) :
  no_cr a = true -> read_text (a ++ b) = a ++ read_text b.
Proof.
  unfold no_cr, read_text. rewrite negb_true_iff.
  induction a as [|x a IH]; intros H; [reflexivity|].
  cbn [Py.has_char] in H. apply orb_false_iff in H. destruct H as [Hx Ha].
  cbn [append universal_newlines]. rewrite Hx, andb_false_r, (IH Ha).
  reflexivity.
Qed.

Lemma read_text_id (s : string) : no_cr s = true -> read_text s = s.
Proof.
  intros H. rewrite <- (append_nil_s s) at 1.
  rewrite (read_text_app _ _ H). apply append_nil_s.
Qed.

(** ** Reading back a serialized document *)

Lemma contains_false (m f : string) :
  Py.contains m f = false -> Py.find m f = None.
Proof. unfold Py.contains. destruct (Py.find m f); [discriminate|reflexivity]. Qed.

Lemma marker_free_inv (f : string) :
  marker_free f = true ->
  Py.find "## Setup Instructions" f = None /\ Py.find "## Usage" f = None
  /\ Py.find "## Notes" f = None /\ Py.find "```" f = None.
Proof.
  unfold marker_free. rewrite !andb_true_iff, !negb_true_iff.
  intros [[[H1 H2] H3] H4]. repeat split; apply contains_false; assumption.
Qed.

(** Walks over a text made of fixed characters and marker-free fields. *)
Ltac walk_first_at :=
  cbn [append];
  repeat first
    [ apply first_at_nil
    | apply first_at_field; [reflexivity|assumption|]
    | apply first_at_cons; [intros ?; reflexivity|] ].

Ltac walk_no_block :=
  cbn [append];
  repeat first
    [ apply no_block_nil
    | apply no_block_field; [reflexivity|assumption|]
    | apply no_block_cons; [reflexivity|] ].

Section Readback.

Variables title d s u n l c : string.

Hypothesis title_free : marker_free title = true.
Hypothesis d_free : marker_free d = true.
Hypothesis s_free : marker_free s = true.
Hypothesis u_free : marker_free u = true.
Hypothesis n_free : marker_free n = true.

Lemma body_setup :
  extract_section (document_body title d s u n l c)
                  "## Setup Instructions" (Some "## Usage")
  = Py.strip ("

" ++ s ++ "

").
Proof.
  destruct (marker_free_inv _ title_free) as (T1 & T2 & T3 & T4).
  destruct (marker_free_inv _ d_free) as (D1 & D2 & D3 & D4).
  destruct (marker_free_inv _ s_free) as (S1 & S2 & S3 & S4).
  set (pre := "
# " ++ title ++ "

## Description

" ++ d ++ "

").
  set (mid := "

" ++ s ++ "

").
  set (post := "

" ++ u ++ "

## Notes

" ++ n ++ "

## Code

```" ++ l ++ "
" ++ c ++ "
```
").
  assert (E : document_body title d s u n l c
              = pre ++ "## Setup Instructions" ++ mid ++ "## Usage" ++ post).
  { unfold document_body, pre, mid, post. rewrite !append_assoc_s.
    reflexivity. }
  rewrite E. apply extract_between.
  - assert (F : first_at "## Setup Instructions" pre)
      by (unfold pre; walk_first_at).
    apply F.
  - assert (F : first_at "## Usage" mid) by (unfold mid; walk_first_at).
    apply F.
Qed.

Lemma body_usage :
  extract_section (document_body title d s u n l c)
                  "## Usage" (Some "## Notes")
  = Py.strip ("

" ++ u ++ "

").
Proof.
  destruct (marker_free_inv _ title_free) as (T1 & T2 & T3 & T4).
  destruct (marker_free_inv _ d_free) as (D1 & D2 & D3 & D4).
  destruct (marker_free_inv _ s_free) as (S1 & S2 & S3 & S4).
  destruct (marker_free_inv _ u_free) as (U1 & U2 & U3 & U4).
  set (pre := "
# " ++ title ++ "

## Description

" ++ d ++ "

## Setup Instructions

" ++ s ++ "

").
  set (mid := "

" ++ u ++ "

").
  set (post := "

" ++ n ++ "

## Code

```" ++ l ++ "
" ++ c ++ "
```
").
  assert (E : document_body title d s u n l c
              = pre ++ "## Usage" ++ mid ++ "## Notes" ++ post).
  { unfold document_body, pre, mid, post. rewrite !append_assoc_s.
    reflexivity. }
  rewrite E. apply extract_between.
  - assert (F : first_at "## Usage" pre) by (unfold pre; walk_first_at).
    apply F.
  - assert (F : first_at "## Notes" mid) by (unfold mid; walk_first_at).
    apply F.
Qed.

Hypothesis l_word : all_word l = true.
Hypothesis c_no_fence : Py.find "
```" c = None.

Lemma body_code :
  search_code_block (document_body title d s u n l c) = Some c.
Proof.
  destruct (marker_free_inv _ title_free) as (T1 & T2 & T3 & T4).
  destruct (marker_free_inv _ d_free) as (D1 & D2 & D3 & D4).
  destruct (marker_free_inv _ s_free) as (S1 & S2 & S3 & S4).
  destruct (marker_free_inv _ u_free) as (U1 & U2 & U3 & U4).
  destruct (marker_free_inv _ n_free) as (N1 & N2 & N3 & N4).
  set (pre := "
# " ++ title ++ "

## Description

" ++ d ++ "

## Setup Instructions

" ++ s ++ "

## Usage

" ++ u ++ "

## Notes

" ++ n ++ "

## Code

").
  assert (E : document_body title d s u n l c
              = pre ++ "```" ++ l ++ "
" ++ c ++ "
```" ++ "
").
  { unfold document_body, pre. rewrite !append_assoc_s. reflexivity. }
  rewrite E.
  assert (F : no_block_in pre) by (unfold pre; walk_no_block).
  apply F, code_block_fence; assumption.
Qed.

End Readback.

(** Sorting the entries does not change what a key is bound to. *)
Lemma dict_get_insert k e l :
  dict_get k (insert_entry e l) = dict_get k (e :: l).
Proof.
  induction l as [|e' r IH]; [reflexivity|]. simpl insert_entry.
  destruct (String.leb (fst e) (fst e')) eqn:E; [reflexivity|].
  destruct e as [ke ve], e' as [ke' ve']. simpl in *. rewrite IH. simpl.
  destruct (String.eqb k ke) eqn:E1; [|reflexivity].
  destruct (String.eqb k ke') eqn:E2; [|reflexivity].
  apply String.eqb_eq in E1, E2. subst.
  destruct (String.leb_total ke' ke'); congruence.
Qed.

Lemma dict_get_sort_keys k m : dict_get k (sort_keys m) = dict_get k m.
Proof.
  induction m as [|[k' v'] m IH]; [reflexivity|].
  simpl sort_keys. rewrite dict_get_insert. simpl. rewrite IH. reflexivity.
Qed.

Section RoundTrip.

Variable yaml_entry : string -> yaml -> string.
Variable yaml_safe_load : string -> outcome yaml.
Variable py_repr : yaml -> string.
Variable isoformat : nat -> string.

Local Abbreviation format_md :=
  (format_pattern_markdown yaml_entry py_repr isoformat).
Local Abbreviation parse := (parse_pattern_file yaml_safe_load).

Lemma render_document (m : Mapping) (fm : string) (p : PatternObj) :
  render py_repr m (fm ++ "
") p
  = "---
" ++ (fm ++ "
") ++ "---
" ++ document_body (title_of py_repr m) (description_of p) (setup_of p)
                   (usage_of p) (notes_of p) (tag_of py_repr p)
                   (code_text_of p).
Proof. reflexivity. Qed.

Lemma document_body_no_cr (title d s u n l c : string) :
  no_cr title = true -> no_cr d = true -> no_cr s = true ->
  no_cr u = true -> no_cr n = true -> no_cr l = true -> no_cr c = true ->
  no_cr (document_body title d s u n l c) = true.
Proof.
  intros Ht Hd Hs Hu Hn Hl Hc. unfold document_body.
  rewrite !no_cr_app, Ht, Hd, Hs, Hu, Hn, Hl, Hc. reflexivity.
Qed.

(** What is read of a stored document: the frontmatter as the YAML
    library wrote it, then the rest of the text as [read_text] gives
    it. *)
Lemma read_document (fm body : string) :
  no_cr fm = true ->
  read_text ("---
" ++ (fm ++ "
") ++ "---
" ++ body)
  = "---
" ++ (fm ++ "
") ++ "---
" ++ read_text body.
Proof.
  intros H.
  rewrite <- !append_assoc_s. rewrite read_text_app; [reflexivity|].
  rewrite !no_cr_app, H. reflexivity.
Qed.


(** Parsing a document whose texts are readable and hold no carriage
    return, and whose frontmatter the YAML library reads back. *)
Lemma parse_render (m : Mapping) (fm : string) (p : PatternObj) :
  readable (title_of py_repr m) (tag_of py_repr p) p ->
  without_cr (title_of py_repr m) (tag_of py_repr p) p ->
  yaml_reads_back yaml_entry yaml_safe_load m fm ->
  exists r,
    parse (render py_repr m (yaml_dump yaml_entry m) p) = Returned r
    /\ metadata r = Some (sort_keys m)
    /\ code r = Some (code_text_of p)
    /\ setup r = Some (setup_of p)
    /\ usage r = Some (usage_of p).
Proof.
  intros (Ht & Hd & Hs & Hu & Hn & Ss & Su & Hl & Hc)
         (Ct & Cd & Cs & Cu & Cn & Cl & Cc) (Hdump & Hcr & Hline & Hload).
  rewrite Hdump, render_document. unfold parse_pattern_file.
  rewrite (read_document _ _ Hcr).
  rewrite (read_text_id _ (document_body_no_cr _ _ _ _ _ _ _
                             Ct Cd Cs Cu Cn Cl Cc)).
  cbv zeta.
  rewrite (match_frontmatter_dump _ _ Hline), Hload. cbn [bind].
  rewrite (body_code _ _ _ _ _ _ _ Ht Hd Hs Hu Hn Hl Hc).
  rewrite (body_setup _ _ _ _ _ _ _ Ht Hd Hs).
  rewrite (body_usage _ _ _ _ _ _ _ Ht Hd Hs Hu).
  rewrite (strip_pad _ Ss), (strip_pad _ Su), Ss, Su.
  eexists. split; [reflexivity|]. repeat split.
Qed.

Lemma title_of_stamped n m :
  title_of py_repr (stamped isoformat n m) = title_of py_repr m.
Proof. unfold title_of. rewrite stamped_other by reflexivity. reflexivity. Qed.

(** C1 (amended). Take a pattern with a metadata mapping, none of whose
    texts (title, description, setup, usage, notes, language tag, code)
    holds a carriage return, whose title, description, setup, usage and
    notes hold none of the markers [## Setup Instructions], [## Usage],
    [## Notes] and no code fence, whose setup and usage have no blank at
    either end, whose language tag is made of word characters, whose code
    has no line that opens with a fence, and whose stamped metadata the
    YAML library dumps without a carriage return and reads back from its
    own dump.  Serializing it and parsing the text as [read_text] gives
    it returns a record with the code, the setup and the usage of the
    pattern where the pattern has them; where it has none, the record has
    the default the serializer printed: the empty text for the code and
    the usage, and [No additional setup required.] for the setup.  The
    record has every entry of the caller's metadata other than [created],
    [updated] and [version].  Nothing is said of the description and the
    notes. *)
Theorem C1_round_trip (p : PatternObj) (a : nat) (w : World) (fm : string) :
  metadata p = Some a -> a < List.length (heap w) ->
  readable (title_of py_repr (deref a w)) (tag_of py_repr p) p ->
  without_cr (title_of py_repr (deref a w)) (tag_of py_repr p) p ->
  yaml_reads_back yaml_entry yaml_safe_load
                  (stamped isoformat (clock w) (deref a w)) fm ->
  exists text w' r,
    format_md p w = (Returned text, w')
    /\ parse text = Returned r
    /\ (forall c, code p = Some c -> code r = Some c)
    /\ (forall s, setup p = Some s -> setup r = Some s)
    /\ (forall u, usage p = Some u -> usage r = Some u)
    /\ (code p = None -> code r = Some "")
    /\ (setup p = None -> setup r = Some "No additional setup required.")
    /\ (usage p = None -> usage r = Some "")
    /\ forall k v, injected k = false ->
                   dict_get k (deref a w) = Some v ->
                   dict_get k (metadata_of r) = Some v.
Proof.
  intros Hm Ha Hr Hcr Hy.
  destruct (format_on_heap yaml_entry py_repr isoformat p a w Hm Ha)
    as (w' & Hf & Hd & _).
  rewrite Hd in Hf. rewrite <- (title_of_stamped (clock w)) in Hr, Hcr.
  destruct (parse_render _ fm p Hr Hcr Hy) as (r & Hp & Hmeta & Hc & Hs & Hu).
  unfold code_text_of, setup_of, usage_of in Hc, Hs, Hu.
  eexists. exists w', r. split; [exact Hf|]. split; [exact Hp|].
  split; [intros c E; rewrite E in Hc; exact Hc|].
  split; [intros s E; rewrite E in Hs; exact Hs|].
  split; [intros u E; rewrite E in Hu; exact Hu|].
  split; [intros E; rewrite E in Hc; exact Hc|].
  split; [intros E; rewrite E in Hs; exact Hs|].
  split; [intros E; rewrite E in Hu; exact Hu|].
  intros k v Hk Hv. unfold metadata_of. rewrite Hmeta, dict_get_sort_keys.
  rewrite stamped_other by exact Hk. exact Hv.
Qed.

End RoundTrip.

Lemma C1_witness :
  metadata Sample.homepage = Some 0
  /\ 0 < List.length (heap Sample.homepage_world)
  /\ exists text w' r,
       format_pattern_markdown Sample.yaml_entry Sample.py_repr
                               Sample.isoformat Sample.homepage
                               Sample.homepage_world
       = (Returned text, w')
       /\ parse_pattern_file Sample.yaml_safe_load text = Returned r
       /\ code r = Some "export const Home = 1;"
       /\ setup r = Some "npm install"
       /\ usage r = Some "Import Home."
       /\ dict_get "task" (metadata_of r) = Some (YStr "create homepage").
Proof.
  split; [reflexivity|]. split; [exact (le_n 1)|].
  destruct (C1_round_trip Sample.yaml_entry Sample.yaml_safe_load
              Sample.py_repr Sample.isoformat Sample.homepage 0
              Sample.homepage_world
              "complexity: 2
created: '2024-05-01T10:00:00.000000'
dependencies: []
tags: []
task: create homepage
updated: '2024-05-01T10:00:00.000001'
version: 1.0.0"
              eq_refl (le_n 1))
    as (text & w' & r & Hf & Hp & Hc & Hs & Hu & _ & _ & _ & Hk).
  - repeat split.
  - repeat split.
  - repeat split.
  - exists text, w', r. split; [exact Hf|]. split; [exact Hp|].
    split; [apply Hc; reflexivity|]. split; [apply Hs; reflexivity|].
    split; [apply Hu; reflexivity|]. apply Hk; reflexivity.
Defined.

(** C1 as stated fails.  The description read back runs on to the
    [## Code] marker, over the three sections that follow it in the
    document, and the notes read back run on to the end of the text, over
    the code block; a setup with blanks around it comes back trimmed; a
    pattern that has no setup comes back with the sentence the serializer
    printed in its place; and a carriage return in the code comes back as
    a line feed, since the file is read with universal newlines. *)
Lemma C1_counterexample :
  let text := fst (format_pattern_markdown Sample.yaml_entry Sample.py_repr
                     Sample.isoformat Sample.homepage Sample.homepage_world) in
  (exists t r,
      text = Returned t
      /\ parse_pattern_file Sample.yaml_safe_load t = Returned r
      /\ description Sample.homepage = Some "A landing page."
      /\ description r = Some "A landing page.

## Setup Instructions

npm install

## Usage

Import Home.

## Notes

None yet."
      /\ notes Sample.homepage = Some "None yet."
      /\ notes r = Some "None yet.

## Code

```typescript
export const Home = 1;
```")
  /\ (let p := mkPattern (Some 0) None None (Some " npm install ") None None
                         None in
      exists t r,
        fst (format_pattern_markdown Sample.yaml_entry Sample.py_repr
               Sample.isoformat p Sample.homepage_world) = Returned t
        /\ parse_pattern_file Sample.yaml_safe_load t = Returned r
        /\ setup r = Some "npm install")
  /\ (let p := mkPattern (Some 0) None (Some "export const Home = 1;") None
                         None None None in
      exists t r,
        fst (format_pattern_markdown Sample.yaml_entry Sample.py_repr
               Sample.isoformat p Sample.homepage_world) = Returned t
        /\ parse_pattern_file Sample.yaml_safe_load t = Returned r
        /\ setup p = None
        /\ setup r = Some "No additional setup required.")
  /\ (let p := mkPattern (Some 0) None
                         (Some ("const a = 1;" ++ String "013" "const b = 2;"))
                         None None None None in
      exists t r,
        fst (format_pattern_markdown Sample.yaml_entry Sample.py_repr
               Sample.isoformat p Sample.homepage_world) = Returned t
        /\ parse_pattern_file Sample.yaml_safe_load t = Returned r
        /\ code r = Some "const a = 1;
const b = 2;"
        /\ code r <> code p).
Proof.
  split; [|split; [|split]].
  - eexists; eexists. split; [reflexivity|]. repeat split.
  - eexists; eexists. split; [reflexivity|]. repeat split.
  - eexists; eexists. split; [reflexivity|]. repeat split.
  - eexists; eexists. split; [reflexivity|]. split; [reflexivity|].
    split; [reflexivity|]. discriminate.
Qed.

(** * Further properties of the code *)

(** ** The matcher *)

Lemma candidate_inv f p t :
  candidate f = Some (p, t) -> f = Returned p /\ pattern_task p = Returned t.
Proof.
  unfold candidate. destruct f as [q|e]; [|discriminate].
  destruct (pattern_task q) eqn:E; [|discriminate].
  intros [= <- <-]. split; [reflexivity|exact E].
Qed.

(** What [find_pattern] returns is one of the candidates it parsed, and
    that candidate has the task as its label, lower-cased, or scores above
    the threshold: a candidate at or below 3/10 is never the result. *)
Theorem find_pattern_in_sound (task : string) (parsed : list (outcome Pattern))
        (p : Pattern) :
  find_pattern_in task parsed = Some p ->
  In (Returned p) parsed
  /\ exists label,
       pattern_task p = Returned label
       /\ (label = Py.lower task
           \/ (threshold < match_score (Py.lower task) label)%Q).
Proof.
  intros H. destruct (scan_result _ _ _ _ _ H) as [Hb|(f & t & Hin & Hc & Hs)];
    [discriminate|].
  destruct (candidate_inv _ _ _ Hc) as [-> Hl]. split; [exact Hin|].
  exists t. split; [exact Hl|]. destruct Hs as [He|Hs]; [|right; exact Hs].
  left. symmetry. apply String.eqb_eq, He.
Qed.

Lemma find_pattern_in_sound_witness :
  find_pattern_in "create a homepage"
    [Returned (labelled "deploy site"); Returned (labelled "create homepage")]
  = Some (labelled "create homepage")
  /\ In (Returned (labelled "create homepage"))
        [Returned (labelled "deploy site"); Returned (labelled "create homepage")].
Proof.
  split; [reflexivity|].
  apply (proj1 (find_pattern_in_sound "create a homepage"
                  [Returned (labelled "deploy site");
                   Returned (labelled "create homepage")]
                  (labelled "create homepage") eq_refl)).
Defined.

(** The score lies between 0 and 1, and it is positive exactly when the
    task and the label have a word in common. *)
Theorem match_score_bounds (task_lower label : string) :
  (0 <= match_score task_lower label)%Q
  /\ (match_score task_lower label <= 1)%Q
  /\ ((0 < match_score task_lower label)%Q
      <-> common_words task_lower label <> []).
Proof.
  unfold match_score, common_words.
  pose proof (inter_length_le (words task_lower) (words label)) as Hle.
  destruct (Py.inter (words task_lower) (words label)) as [|x r] eqn:E.
  - split; [apply Qle_refl|]. split; [discriminate|].
    split; [intros H; discriminate H|intros H; congruence].
  - set (k := List.length (x :: r)) in *.
    set (m := Nat.max (List.length (words task_lower))
                      (List.length (words label))).
    assert (Hk : 0 < k) by (unfold k; simpl; lia).
    assert (Hm : k <= m) by (unfold m; lia).
    assert (Hz : Z.pos (Pos.of_nat m) = Z.of_nat m).
    { rewrite <- (positive_nat_Z (Pos.of_nat m)), Nat2Pos.id by lia.
      reflexivity. }
    clearbody k m.
    split; [|split; [|split; [discriminate|]]].
    + unfold Qle. cbn [Qnum Qden]. lia.
    + unfold Qle. cbn [Qnum Qden]. rewrite Hz. lia.
    + intros _. unfold Qlt. cbn [Qnum Qden]. lia.
Qed.

(** A candidate that is skipped, or that is no exact match and scores at
    most the threshold, can be taken out of the enumeration: the result is
    the same. *)
Lemma scan_without tl f pre post :
  match candidate f with
  | Some (_, t) =>
      String.eqb tl t = false /\ (match_score tl t <= threshold)%Q
  | None => True
  end ->
  forall bm bs,
    scan tl (pre ++ f :: post)%list bm bs = scan tl (pre ++ post)%list bm bs.
Proof.
  intros Hf. induction pre as [|g pre IH]; intros bm bs.
  - simpl app. destruct (candidate f) as [[p t]|] eqn:E.
    + destruct Hf as [He Hs]. rewrite (scan_seen _ _ _ _ _ _ _ E), He.
      apply Qltb_ge in Hs. rewrite Hs, andb_false_r. reflexivity.
    + apply scan_skip, E.
  - simpl app. destruct (candidate g) as [[p t]|] eqn:E.
    + rewrite !(scan_seen _ _ _ _ _ _ _ E).
      destruct (String.eqb tl t); [reflexivity|].
      destruct (_ && _); apply IH.
    + rewrite !(scan_skip _ _ _ _ _ E). apply IH.
Qed.

Theorem low_scorers_do_not_matter (task : string) (f : outcome Pattern)
        (pre post : list (outcome Pattern)) :
  exact task f = false -> (score_of task f <= threshold)%Q ->
  find_pattern_in task (pre ++ f :: post)%list
  = find_pattern_in task (pre ++ post)%list.
Proof.
  unfold exact, score_of, find_pattern_in. intros He Hs.
  apply scan_without. destruct (candidate f) as [[p t]|]; [|constructor].
  split; assumption.
Qed.

Lemma low_scorers_do_not_matter_witness :
  exact "create homepage" (Returned (labelled "deploy the new homepage now")) = false
  /\ find_pattern_in "create homepage"
       [Returned (labelled "deploy the new homepage now");
        Returned (labelled "create page")]
     = find_pattern_in "create homepage" [Returned (labelled "create page")].
Proof.
  split; [reflexivity|].
  apply (low_scorers_do_not_matter "create homepage"
           (Returned (labelled "deploy the new homepage now")) []
           [Returned (labelled "create page")] eq_refl).
  vm_compute. discriminate.
Defined.

(** A file that [parse_pattern_file] cannot read as a pattern: its text,
    as [read_text] gives it, does not open with a frontmatter block, or
    the frontmatter fails to load, or it loads to something that is not a
    mapping. *)
Definition malformed (yaml_safe_load : string -> outcome yaml)
           (stored : string) : Prop :=
  match match_frontmatter (read_text stored) with
  | None => True
  | Some (group1, _) =>
      match yaml_safe_load group1 with
      | Returned (YMap _) => False
      | _ => True
      end
  end.

Lemma inter_nil_r (a : list string) : Py.inter a [] = [].
Proof. unfold Py.inter. induction a as [|w a IH]; simpl; auto. Qed.

Lemma parse_malformed yaml_safe_load content :
  malformed yaml_safe_load content ->
  parse_pattern_file yaml_safe_load content = Returned empty_pattern
  \/ exists e, parse_pattern_file yaml_safe_load content = Raised e.
Proof.
  unfold malformed, parse_pattern_file. cbv zeta.
  destruct (match_frontmatter (read_text content)) as [[g b]|];
    [|left; reflexivity].
  destruct (yaml_safe_load g) as [[| | | | |]|e]; simpl; intros H;
    try destruct H; right; eexists; reflexivity.
Qed.

(** Malformed files are skipped without a trace: for a task that is not
    empty, [find_pattern] answers as if the file were not in the
    directory. *)
Theorem malformed_files_are_skipped
        (yaml_safe_load : string -> outcome yaml) (domain task : string)
        (w : World) (pre post : list (string * string))
        (name content : string) :
  Py.lower task <> "" ->
  malformed yaml_safe_load content ->
  dirs w (patterns_dir domain) = Some (pre ++ (name, content) :: post)%list ->
  find_pattern yaml_safe_load domain task w
  = find_pattern_in task (parse_all yaml_safe_load (pre ++ post)%list).
Proof.
  intros Ht Hm Hd. unfold find_pattern. rewrite Hd. unfold parse_all.
  rewrite !map_app. simpl map. unfold find_pattern_in. apply scan_without.
  destruct (parse_malformed _ _ Hm) as [-> | [e ->]]; [|constructor].
  cbn. split.
  - apply String.eqb_neq, Ht.
  - unfold match_score. change (words "") with (@nil string).
    rewrite inter_nil_r. discriminate.
Qed.

Lemma malformed_files_are_skipped_witness :
  Py.lower "Create Homepage" <> ""
  /\ malformed Sample.yaml_safe_load "# just a note, no frontmatter"
  /\ find_pattern Sample.yaml_safe_load "frontend" "Create Homepage"
       (mkWorld [] (fun _ => Some [("note.md", "# just a note, no frontmatter")])
                [] [] 0)
     = None.
Proof.
  split; [discriminate|]. split; [exact I|].
  apply (malformed_files_are_skipped Sample.yaml_safe_load "frontend"
           "Create Homepage"
           (mkWorld [] (fun _ => Some [("note.md", "# just a note, no frontmatter")])
                    [] [] 0)
           [] [] "note.md" "# just a note, no frontmatter").
  - discriminate.
  - exact I.
  - reflexivity.
Defined.

(** ** Lower-casing *)

Lemma lower_char_idem (c : ascii) :
  Py.lower_char (Py.lower_char c) = Py.lower_char c.
Proof.
  destruct c as [[] [] [] [] [] [] [] []]; reflexivity.
Qed.

Lemma lower_idem (s : string) : Py.lower (Py.lower s) = Py.lower s.
Proof.
  induction s as [|c s IH]; simpl; [reflexivity|].
  rewrite lower_char_idem, IH. reflexivity.
Qed.

(** The matcher, the dispatch and the file name see the task through
    [lower()] only, and [lower()] applied twice is [lower()]: a task
    lower-cased beforehand is matched, dispatched and named as the task
    itself. *)
Theorem lower_cased_task_is_the_same (task : string) :
  (forall parsed,
      find_pattern_in (Py.lower task) parsed = find_pattern_in task parsed)
  /\ determine_agent (Py.lower task) = determine_agent task
  /\ slug (Py.lower task) = slug task.
Proof.
  unfold find_pattern_in, determine_agent, slug. rewrite lower_idem.
  repeat split.
Qed.

(** ** The validators *)

Lemma errors_of_nil (p : Pattern) :
  errors_of p = []
  <-> has_required p = true /\ long_enough p = true /\ complete p = true.
Proof.
  unfold errors_of. split.
  - intros H. apply app_eq_nil in H. destruct H as [H1 H2].
    apply app_eq_nil in H2. destruct H2 as [H2 H3].
    split; [|split].
    + revert H1. unfold has_required, required_metadata. simpl.
      destruct (dict_has "task" _); [|discriminate].
      destruct (dict_has "complexity" _); [|discriminate].
      destruct (dict_has "tags" _); [|discriminate].
      destruct (dict_has "dependencies" _); [reflexivity|discriminate].
    + destruct (long_enough p); [reflexivity|discriminate].
    + destruct (complete p); [reflexivity|discriminate].
  - intros (H1 & H2 & H3).
    rewrite (has_required_no_errors p H1), H2, H3. reflexivity.
Qed.

Lemma errors_of_length (p : Pattern) : List.length (errors_of p) <= 6.
Proof.
  unfold errors_of, required_metadata. simpl flat_map.
  rewrite !length_app.
  destruct (dict_has "task" _), (dict_has "complexity" _),
    (dict_has "tags" _), (dict_has "dependencies" _),
    (long_enough p), (complete p); simpl; lia.
Qed.

(** A pattern is valid exactly when it has the four required keys, at
    least 50 characters of trimmed code, and neither [TODO] nor [pass]
    anywhere in the code; there are at most six errors, and a warning
    exactly when the complexity is an integer above 5. *)
Theorem validate_pattern_valid_iff (p : Pattern) :
  complexity_is_int p = true ->
  exists r,
    validate_pattern p = Returned r
    /\ (valid r = true
        <-> has_required p = true /\ long_enough p = true
            /\ complete p = true)
    /\ List.length (errors r) <= 6
    /\ (warnings r <> []
        <-> exists n, dict_get "complexity" (metadata_of p) = Some (YInt n)
                      /\ (5 < n)%Z).
Proof.
  intros Hty. destruct (validate_returns p Hty) as (ws & Hr & Hw).
  eexists. split; [exact Hr|]. cbn [valid errors warnings].
  split; [|split; [apply errors_of_length|]].
  - rewrite <- errors_of_nil. destruct (errors_of p); split;
      intros H; try reflexivity; discriminate.
  - revert Hw. unfold complexity_is_int in Hty.
    destruct (dict_get "complexity" (metadata_of p)) as [[| |n| | |]|];
      try discriminate Hty; simpl.
    + intros [= <-]. split; [intros H; congruence|intros (n & Hn & _); discriminate].
    + destruct (5 <? n)%Z eqn:E; intros [= <-].
      * split; [intros _|discriminate]. exists n. split; [reflexivity|].
        apply Z.ltb_lt, E.
      * split; [intros H; congruence|]. intros (k & [= <-] & Hk).
        apply Z.ltb_lt in Hk. congruence.
    + intros [= <-]. split; [intros H; congruence|intros (n & Hn & _); discriminate].
Qed.

Lemma validate_pattern_valid_iff_witness :
  let p : Pattern :=
    mkPattern (Some [("task", YStr "create homepage"); ("complexity", YInt 2);
                     ("tags", YSeq []); ("dependencies", YSeq [])])
              None (Some "const password = 1;") None None None None in
  complexity_is_int p = true
  /\ exists r, validate_pattern p = Returned r /\ valid r <> true.
Proof.
  intros p. split; [reflexivity|].
  destruct (validate_pattern_valid_iff p eq_refl) as (r & Hr & Hv & _).
  exists r. split; [exact Hr|]. intros H. apply Hv in H.
  destruct H as (_ & H & _). discriminate H.
Defined.

(** When the complexity is a string, a null, a list or a mapping,
    [validate_pattern] reports nothing: the comparison with 5 raises
    [TypeError], whatever the rest of the pattern is. *)
Theorem validate_pattern_raises (p : Pattern) (v : yaml) :
  dict_get "complexity" (metadata_of p) = Some v ->
  complexity_is_int p = false ->
  validate_pattern p = Raised (not_supported ">" v)
  /\ exn_kind (not_supported ">" v) = TypeError.
Proof.
  unfold complexity_is_int, validate_pattern. intros ->.
  destruct v; try discriminate; intros _; split; reflexivity.
Qed.

Lemma validate_pattern_raises_witness :
  validate_pattern
    (mkPattern (Some [("task", YStr "create homepage");
                      ("complexity", YStr "high")])
               None None None None None None)
  = Raised (Exn TypeError
               "'>' not supported between instances of 'str' and 'int'").
Proof.
  apply (proj1 (validate_pattern_raises
                  (mkPattern (Some [("task", YStr "create homepage");
                                    ("complexity", YStr "high")])
                             None None None None None None)
                  (YStr "high") eq_refl eq_refl)).
Defined.

(** [PatternFrameworkServer.validate_code] of [.ai/mcp/server.py]: the
    report it returns.  The lists grow in the order of the checks. *)
Record CodeReport : Type := mkCodeReport {
  report_valid : bool;
  report_errors : list string;
  report_warnings : list string;
  report_message : string
}.

Definition validate_code (code : string) : CodeReport :=
  let errors0 :=
    if Py.contains "TODO" code then ["Code contains TODO markers"] else [] in
  let errors1 :=
    if Py.contains "..." code && negb (Py.contains "// ..." code)
       && negb (Py.contains "# ..." code)
    then (errors0 ++ ["Code contains placeholder ellipsis"])%list
    else errors0 in
  let warnings0 :=
    if Py.contains "pass" code
       && negb (Py.contains "password" (Py.lower code))
    then ["Code contains 'pass' statement"] else [] in
  let errors2 :=
    if String.length (Py.strip code) <? 50
    then (errors1 ++ ["Code too short to be a complete solution"])%list
    else errors1 in
  let warnings1 :=
    if Py.contains "any" code && Py.contains "typescript" (Py.lower code)
    then (warnings0 ++ ["Consider using specific types instead of 'any'"])%list
    else warnings0 in
  mkCodeReport (match errors2 with [] => true | _ => false end)
               errors2 warnings1
               (match errors2 with
                | [] => "Validation complete"
                | _ => "Validation failed"
                end).

(** The test of line 340: the code holds an ellipsis and holds neither
    the text [// ...] nor the text [# ...].  One such text anywhere in the
    code is enough for the test to fail, whatever ellipses the rest of the
    code has. *)
Definition ellipsis_reported (code : string) : bool :=
  Py.contains "..." code && negb (Py.contains "// ..." code)
  && negb (Py.contains "# ..." code).

(** The server's validator accepts a code exactly when it has no [TODO],
    at least 50 characters once trimmed, and either no ellipsis or the
    text [// ...] or [# ...] somewhere: the ellipsis check is on the whole
    code, so one such marker lets every ellipsis of the code through.
    [pass] is never an error there, and the message tells the same as the
    flag. *)
Theorem validate_code_valid_iff (code : string) :
  (report_valid (validate_code code) = true
   <-> Py.contains "TODO" code = false
       /\ (Py.contains "..." code = false
           \/ Py.contains "// ..." code = true
           \/ Py.contains "# ..." code = true)
       /\ (String.length (Py.strip code) <? 50) = false)
  /\ (In "Code contains placeholder ellipsis" (report_errors (validate_code code))
      <-> ellipsis_reported code = true)
  /\ (report_valid (validate_code code) = true
      <-> report_errors (validate_code code) = [])
  /\ (report_message (validate_code code) = "Validation complete"
      <-> report_valid (validate_code code) = true)
  /\ ~ In "Code contains 'pass' statement" (report_errors (validate_code code)).
Proof.
  unfold validate_code, ellipsis_reported.
  cbn [report_valid report_errors report_message].
  destruct (Py.contains "TODO" code);
    destruct (Py.contains "..." code);
    destruct (Py.contains "// ..." code);
    destruct (Py.contains "# ..." code);
    destruct (String.length (Py.strip code) <? 50); cbn [andb negb app];
    (split; [|split; [|split; [|split]]]);
    try (split; intros H; try reflexivity; try discriminate;
         try (destruct H as (H1 & [H2|[H2|H2]] & H3); discriminate);
         try (repeat split; auto; fail);
         try (repeat (destruct H as [H|H]; try discriminate H); try exact H);
         try (simpl; auto; fail); fail);
    try (intros H; repeat (destruct H as [H|H]; try discriminate H);
         try exact H).
Qed.

(** A code with an ellipsis outside any comment is accepted as soon as a
    comment elsewhere in it reads [// ...]. *)
Lemma validate_code_marker_excuses :
  let code := "const items = [...];
// ...
export default function Home() { return items; }" in
  Py.contains "[...]" code = true
  /\ report_valid (validate_code code) = true
  /\ report_errors (validate_code code) = [].
Proof. repeat split. Qed.

(** A code that passes the two code checks of [validate_pattern] and has
    no ellipsis passes [validate_code], without the warning on [pass]. *)
Theorem pattern_code_passes_validate_code (p : Pattern) :
  long_enough p = true -> complete p = true ->
  Py.contains "..." (code_of p) = false ->
  report_valid (validate_code (code_of p)) = true
  /\ ~ In "Code contains 'pass' statement"
          (report_warnings (validate_code (code_of p))).
Proof.
  unfold long_enough, complete. rewrite !negb_true_iff, orb_false_iff.
  intros Hl [Ht Hp] He. unfold validate_code.
  cbn [report_valid report_warnings]. rewrite Ht, He, Hl, Hp. simpl.
  split; [reflexivity|].
  destruct (Py.contains "any" (code_of p) && _); simpl; intros H;
    repeat (destruct H as [H|H]; try discriminate H); exact H.
Qed.

Lemma pattern_code_passes_validate_code_witness :
  let p : Pattern :=
    mkPattern None None
      (Some "export default function Home() { return <main>Home</main>; }")
      None None None None in
  long_enough p = true
  /\ report_valid (validate_code (code_of p)) = true.
Proof.
  intros p. split; [reflexivity|].
  apply (proj1 (pattern_code_passes_validate_code p eq_refl eq_refl eq_refl)).
Defined.

(** ** The file name of a saved pattern *)

(** Every character of the text passes the test. *)
Fixpoint all_chars (f : ascii -> bool) (s : string) : bool :=
  match s with
  | EmptyString => true
  | String c r => f c && all_chars f r
  end.

Definition slug_char (c : ascii) : bool := Py.isword c || Ascii.eqb c "-".

Lemma keep_slug_chars_kept (s : string) :
  all_chars (fun c => Py.isword c || Py.isspace c || Ascii.eqb c "-")
            (keep_slug_chars s) = true.
Proof.
  induction s as [|c s IH]; simpl; [reflexivity|].
  destruct (Py.isword c || Py.isspace c || Ascii.eqb c "-") eqn:E; simpl;
    [rewrite E|]; exact IH.
Qed.

Lemma collapse_runs_chars (b : bool) (s : string) :
  all_chars (fun c => Py.isword c || Py.isspace c || Ascii.eqb c "-") s = true ->
  all_chars slug_char (collapse_runs b s) = true.
Proof.
  revert b. induction s as [|c s IH]; intros b; simpl; [reflexivity|].
  intros H. apply andb_true_iff in H. destruct H as [Hc Hs].
  destruct (Py.isspace c || Ascii.eqb c "-") eqn:E.
  - destruct b; simpl; apply IH, Hs.
  - simpl. rewrite (IH false Hs), andb_true_r. unfold slug_char.
    apply orb_false_iff in E. destruct E as [E1 E2].
    rewrite E1, E2 in Hc. rewrite E2. rewrite !orb_false_r in *. exact Hc.
Qed.

Lemma collapse_runs_no_double (b : bool) (s : string) :
  Py.find "--" (collapse_runs b s) = None
  /\ (b = true -> Py.startswith "-" (collapse_runs b s) = false).
Proof.
  revert b. induction s as [|c s IH]; intros b.
  - simpl. split; [reflexivity|intros _; reflexivity].
  - simpl collapse_runs. destruct (Py.isspace c || Ascii.eqb c "-") eqn:E.
    + destruct b; [apply IH|]. destruct (IH true) as [H1 H2].
      split; [|discriminate].
      rewrite find_cons; [rewrite H1; reflexivity|].
      cbn [Py.startswith]. change (Ascii.eqb "-" "-") with true.
      cbn [andb]. apply H2. reflexivity.
    + apply orb_false_iff in E. destruct E as [_ E].
      rewrite Ascii.eqb_sym in E. destruct (IH false) as [H1 _].
      split.
      * rewrite find_cons; [rewrite H1; reflexivity|].
        cbn [Py.startswith]. rewrite E. reflexivity.
      * intros _. cbn [Py.startswith]. rewrite E. reflexivity.
Qed.

Lemma all_chars_take f n s :
  all_chars f s = true -> all_chars f (Py.take n s) = true.
Proof.
  revert s. induction n as [|n IH]; intros [|c s]; simpl; try reflexivity.
  intros H. apply andb_true_iff in H. destruct H as [-> H]. apply IH, H.
Qed.

Lemma startswith_take m n s :
  Py.startswith m (Py.take n s) = true -> Py.startswith m s = true.
Proof.
  revert n s. induction m as [|x m IH]; intros n s; [reflexivity|].
  destruct n as [|n], s as [|c s]; simpl; try discriminate.
  intros H. apply andb_true_iff in H. destruct H as [-> H].
  apply (IH _ _ H).
Qed.

Lemma find_take m n s :
  Py.find m s = None -> Py.find m (Py.take n s) = None.
Proof.
  revert s. induction n as [|n IH]; intros s H.
  - apply find_none_inv in H.
    destruct (Py.startswith m (Py.take 0 s)) eqn:E.
    + apply startswith_take in E. congruence.
    + destruct s; simpl in *; rewrite E; reflexivity.
  - destruct s as [|c s]; [exact H|].
    assert (Hs : Py.startswith m (Py.take (S n) (String c s)) = false).
    { destruct (Py.startswith m (Py.take (S n) (String c s))) eqn:E;
        [|reflexivity].
      apply startswith_take in E. apply find_none_inv in H. congruence. }
    simpl Py.take in *. rewrite (find_cons _ _ _ Hs).
    rewrite (IH s (find_none_tail _ _ _ H)). reflexivity.
Qed.

Lemma length_take_le n s : String.length (Py.take n s) <= n.
Proof.
  revert s. induction n as [|n IH]; intros [|c s]; simpl; try lia.
  specialize (IH s). lia.
Qed.

(** The name of the file [save_pattern] writes is a stem of at most 50
    characters followed by [.md]; the stem is made of word characters and
    hyphens only, so it has no blank and no path separator, and it never
    has two hyphens in a row. *)
Theorem slug_shape (task : string) :
  exists stem,
    slug task = stem ++ ".md"
    /\ String.length stem <= 50
    /\ all_chars slug_char stem = true
    /\ Py.find "--" stem = None
    /\ Py.contains "/" stem = false.
Proof.
  unfold slug. eexists. split; [reflexivity|].
  pose proof (keep_slug_chars_kept (Py.lower task)) as Hk.
  pose proof (collapse_runs_chars false _ Hk) as Hc.
  split; [apply length_take_le|]. split; [apply all_chars_take, Hc|].
  split; [apply find_take, (collapse_runs_no_double false)|].
  pose proof (all_chars_take _ 50 _ Hc) as Ht. revert Ht.
  generalize (Py.take 50 (collapse_runs false (keep_slug_chars (Py.lower task)))).
  intros s. unfold Py.contains. induction s as [|c s IH]; [reflexivity|].
  simpl all_chars. intros H. apply andb_true_iff in H. destruct H as [Hc' Hs].
  specialize (IH Hs).
  assert (Hne : Py.startswith "/" (String c s) = false).
  { cbn [Py.startswith]. destruct (Ascii.eqb "/" c) eqn:E; [|reflexivity].
    apply Ascii.eqb_eq in E. subst c. discriminate Hc'. }
  rewrite (find_cons _ _ _ Hne). destruct (Py.find "/" s); [discriminate|].
  reflexivity.
Qed.

Lemma keep_slug_chars_app (a b : string) :
  keep_slug_chars (a ++ b) = keep_slug_chars a ++ keep_slug_chars b.
Proof.
  induction a as [|c a IH]; simpl; [reflexivity|].
  destruct (Py.isword c || Py.isspace c || Ascii.eqb c "-"); simpl;
    rewrite IH; reflexivity.
Qed.

(** A character that is neither a word character, a blank nor a hyphen
    never reaches the file name: two tasks whose lower-cased texts differ
    by such a character only are saved to the same file. *)
Theorem slug_ignores_punctuation (task1 task2 a b : string) (c : ascii) :
  Py.isword c = false -> Py.isspace c = false -> Ascii.eqb c "-" = false ->
  Py.lower task1 = a ++ String c b -> Py.lower task2 = a ++ b ->
  slug task1 = slug task2.
Proof.
  intros Hw Hs Hh H1 H2. unfold slug.
  rewrite H1, H2, !keep_slug_chars_app. cbn [keep_slug_chars].
  rewrite Hw, Hs, Hh. reflexivity.
Qed.

Lemma slug_ignores_punctuation_witness :
  slug "Create a home page!" = slug "Create a home page"
  /\ slug "Create a home page" = "create-a-home-page.md".
Proof.
  split; [|reflexivity].
  apply (slug_ignores_punctuation "Create a home page!" "Create a home page"
           "create a home page" "" "!"); reflexivity.
Defined.

(** ** The pattern store *)

(** The text stored under a name in a listing. *)
Fixpoint read_entry (name : string) (entries : list (string * string))
  : option string :=
  match entries with
  | [] => None
  | (n, c) :: r => if String.eqb n name then Some c else read_entry name r
  end.

Lemma read_write_same name content entries :
  read_entry name (write_entry name content entries) = Some content.
Proof.
  induction entries as [|[n c] r IH]; simpl.
  - rewrite String.eqb_refl. reflexivity.
  - destruct (String.eqb n name) eqn:E; simpl; rewrite E; [reflexivity|exact IH].
Qed.

Lemma read_write_other name other content entries :
  other <> name ->
  read_entry other (write_entry name content entries) = read_entry other entries.
Proof.
  intros Hne. induction entries as [|[n c] r IH]; simpl.
  - destruct (String.eqb name other) eqn:E; [|reflexivity].
    apply String.eqb_eq in E. congruence.
  - destruct (String.eqb n name) eqn:E; simpl.
    + apply String.eqb_eq in E. subst n.
      destruct (String.eqb name other) eqn:E'; [|reflexivity].
      apply String.eqb_eq in E'. congruence.
    + destruct (String.eqb n other); [reflexivity|exact IH].
Qed.

Lemma length_write_entry name content entries :
  List.length (write_entry name content entries)
  = match read_entry name entries with
    | Some _ => List.length entries
    | None => S (List.length entries)
    end.
Proof.
  induction entries as [|[n c] r IH]; simpl; [reflexivity|].
  destruct (String.eqb n name); simpl; [reflexivity|].
  rewrite IH. destruct (read_entry name r); reflexivity.
Qed.

Lemma in_write_entry name content entries :
  In (name, content) (write_entry name content entries).
Proof.
  induction entries as [|[n c] r IH]; simpl; [left; reflexivity|].
  destruct (String.eqb n name) eqn:E; simpl.
  - apply String.eqb_eq in E. subst n. left. reflexivity.
  - right. exact IH.
Qed.

Section Store.

Variable yaml_entry : string -> yaml -> string.
Variable yaml_safe_load : string -> outcome yaml.
Variable py_repr : yaml -> string.
Variable isoformat : nat -> string.

Local Abbreviation format_md :=
  (format_pattern_markdown yaml_entry py_repr isoformat).
Local Abbreviation save := (save_pattern yaml_entry py_repr isoformat).

(** Serialization returns a text and touches neither the directories nor
    the logs; it reads the clock twice. *)
Lemma format_frame (p : PatternObj) (w : World) :
  well_addressed w p ->
  exists text w1,
    format_md p w = (Returned text, w1)
    /\ dirs w1 = dirs w /\ same_logs w w1 /\ clock w1 = S (S (clock w)).
Proof.
  unfold well_addressed. intros Ha. destruct (metadata p) as [a|] eqn:Em.
  - destruct (format_on_heap yaml_entry py_repr isoformat p a w Em Ha)
      as (w1 & Hf & _ & _ & Hc & Hd & Hl).
    eexists. exists w1. split; [exact Hf|]. repeat split; try assumption;
      apply Hl.
  - destruct (format_fresh yaml_entry py_repr isoformat p w Em)
      as (w1 & Hf & _ & Hc & Hd & Hl).
    eexists. exists w1. split; [exact Hf|]. repeat split; try assumption;
      apply Hl.
Qed.

(** [save_pattern] into an existing directory returns the path of the
    file; the file then holds the serialized text, the other files and the
    other directories are as they were, the directory has at most one
    entry more, and the logs are untouched. *)
Theorem save_pattern_stores (domain : string) (p : PatternObj)
        (task : string) (w : World) (entries : list (string * string)) :
  well_addressed w p ->
  dirs w (patterns_dir domain) = Some entries ->
  exists text w1 w' entries',
    format_md p w = (Returned text, w1)
    /\ save domain p task w
       = (Returned (patterns_dir domain ++ "/" ++ slug task), w')
    /\ dirs w' (patterns_dir domain) = Some entries'
    /\ read_entry (slug task) entries' = Some text
    /\ (forall other, other <> slug task ->
                      read_entry other entries' = read_entry other entries)
    /\ List.length entries <= List.length entries' <= S (List.length entries)
    /\ (forall d, d <> patterns_dir domain -> dirs w' d = dirs w d)
    /\ heap w' = heap w1 /\ same_logs w w'.
Proof.
  intros Ha Hd.
  destruct (format_frame p w Ha) as (text & w1 & Hf & Hd1 & Hl & _).
  exists text, w1. unfold save_pattern, bindM. rewrite Hf.
  unfold write_text. rewrite Hd1, Hd. eexists; eexists.
  split; [reflexivity|]. split; [reflexivity|]. cbn [dirs set_dirs heap].
  split; [rewrite String.eqb_refl; reflexivity|].
  split; [apply read_write_same|].
  split; [intros other Ho; apply read_write_other, Ho|].
  split; [rewrite length_write_entry;
          destruct (read_entry (slug task) entries); lia|].
  split.
  - intros d Hne. destruct (String.eqb d (patterns_dir domain)) eqn:E;
      [apply String.eqb_eq in E; congruence|]. rewrite ?Hd1. reflexivity.
  - split; [reflexivity|]. destruct Hl as [H1 H2]. split; assumption.
Qed.

(** [save_pattern] into a directory that does not exist raises
    [FileNotFoundError]; the stamps are already in the caller's metadata
    by then, and they stay. *)
Theorem save_pattern_missing_directory (domain : string) (p : PatternObj)
        (a : nat) (task : string) (w : World) :
  metadata p = Some a -> a < List.length (heap w) ->
  dirs w (patterns_dir domain) = None ->
  exists e w',
    save domain p task w = (Raised e, w')
    /\ exn_kind e = FileNotFoundError
    /\ dirs w' = dirs w
    /\ deref a w' = stamped isoformat (clock w) (deref a w)
    /\ dict_get "version" (deref a w') = Some (YStr "1.0.0").
Proof.
  intros Hm Ha Hd.
  destruct (format_on_heap yaml_entry py_repr isoformat p a w Hm Ha)
    as (w1 & Hf & Hs & _ & _ & Hd1 & _).
  unfold save_pattern, bindM. rewrite Hf. unfold write_text.
  rewrite Hd1, Hd. eexists; eexists. split; [reflexivity|].
  split; [reflexivity|]. split; [exact Hd1|]. split; [exact Hs|].
  rewrite Hs. apply stamped_version.
Qed.

End Store.

Lemma save_pattern_stores_witness :
  well_addressed Sample.homepage_world Sample.homepage
  /\ exists text w' entries',
       save_pattern Sample.yaml_entry Sample.py_repr Sample.isoformat
                    "frontend" Sample.homepage "Create Homepage!"
                    Sample.homepage_world
       = (Returned ".ai/patterns/frontend/create-homepage.md", w')
       /\ dirs w' ".ai/patterns/frontend" = Some entries'
       /\ read_entry "create-homepage.md" entries' = Some text.
Proof.
  split; [exact (le_n 1)|].
  destruct (save_pattern_stores Sample.yaml_entry Sample.py_repr
              Sample.isoformat "frontend" Sample.homepage "Create Homepage!"
              Sample.homepage_world [] (le_n 1) eq_refl)
    as (text & w1 & w' & entries' & _ & Hs & Hd & Hr & _).
  exists text, w', entries'. split; [exact Hs|]. split; [exact Hd|exact Hr].
Defined.

Lemma save_pattern_missing_directory_witness :
  exists e w',
    save_pattern Sample.yaml_entry Sample.py_repr Sample.isoformat
                 "api" Sample.homepage "Create Homepage"
                 Sample.homepage_world = (Raised e, w')
    /\ exn_kind e = FileNotFoundError
    /\ dict_get "version" (deref 0 w') = Some (YStr "1.0.0").
Proof.
  destruct (save_pattern_missing_directory Sample.yaml_entry Sample.py_repr
              Sample.isoformat "api" Sample.homepage 0 "Create Homepage"
              Sample.homepage_world eq_refl (le_n 1) eq_refl)
    as (e & w' & Hs & Hk & _ & _ & Hv).
  exists e, w'. split; [exact Hs|]. split; [exact Hk|exact Hv].
Defined.

Section SaveThenFind.

Variable yaml_entry : string -> yaml -> string.
Variable yaml_safe_load : string -> outcome yaml.
Variable py_repr : yaml -> string.
Variable isoformat : nat -> string.


End SaveThenFind.


Section Execute.

Variable yaml_entry : string -> yaml -> string.
Variable yaml_safe_load : string -> outcome yaml.
Variable py_repr : yaml -> string.
Variable repr_strs : list string -> string.
Variable isoformat : nat -> string.

Local Abbreviation format_md :=
  (format_pattern_markdown yaml_entry py_repr isoformat).
Local Abbreviation find_in_store := (find_pattern yaml_safe_load).
Local Abbreviation save := (save_pattern yaml_entry py_repr isoformat).
Local Abbreviation create_save :=
  (create_validate_save yaml_entry py_repr repr_strs isoformat).
Local Abbreviation body :=
  (execute_body yaml_entry yaml_safe_load py_repr repr_strs isoformat).
Local Abbreviation run :=
  (execute yaml_entry yaml_safe_load py_repr repr_strs isoformat).

Context {agent : Agent}.

(** On a match, [execute] returns the code of the matched pattern as it
    is, the empty text when the pattern has none; it writes one metrics
    record, with the number of files of the directory, reads the clock
    once, and leaves the store and the error log alone. *)
Theorem execute_hit (task : string) (w : World) (p : Pattern) :
  find_in_store domain task w = Some p -> truthy p = true ->
  exists w',
    run task w = (Returned (or_default (code p) ""), w')
    /\ heap w' = heap w /\ dirs w' = dirs w /\ clock w' = S (clock w)
    /\ errors_log w' = errors_log w
    /\ metrics_log w'
       = (metrics_log w
          ++ [mkMetrics (isoformat (clock w)) task domain true
                        (List.length (glob_md domain w))])%list.
Proof.
  intros Hf Ht. unfold execute, execute_body. unfold bindM at 1.
  rewrite Hf, Ht. eexists. split; [reflexivity|]. repeat split.
Qed.

(** The [try] block on a miss: creation, then the metrics. *)
Lemma body_on_miss (task : string) (w : World) :
  is_miss (find_in_store domain task w) = true ->
  body task w
  = (q <~ create_save task ;;
     _ <~ log_metrics isoformat domain task true ;;
     ret (generate_from_pattern q task)) w.
Proof.
  intros Hm. unfold execute_body. unfold bindM at 1. unfold is_miss in Hm.
  destruct (find_in_store domain task w) as [p|].
  - apply negb_true_iff in Hm. rewrite Hm. unfold bindM.
    destruct (create_save task w) as [[q|e] w1]; reflexivity.
  - unfold bindM. destruct (create_save task w) as [[q|e] w1]; reflexivity.
Qed.

(** The path of a miss through creation, validation and saving: the
    created pattern is serialized into the file named after the task, its
    code is returned, and the metrics record counts the new file; the
    record says [pattern_reused] although the pattern was just created. *)
Theorem execute_creates_and_saves (task : string) (w w1 : World)
        (q : PatternObj) (v : Validation) (entries : list (string * string)) :
  is_miss (find_in_store domain task w) = true ->
  create_pattern task w = (Returned q, w1) ->
  validate_pattern (snapshot w1 q) = Returned v -> valid v = true ->
  well_addressed w1 q ->
  dirs w1 (patterns_dir domain) = Some entries ->
  exists text w2 w' entries',
    format_md q w1 = (Returned text, w2)
    /\ run task w = (Returned (or_default (code q) ""), w')
    /\ dirs w' (patterns_dir domain) = Some entries'
    /\ read_entry (slug task) entries' = Some text
    /\ errors_log w' = errors_log w1
    /\ metrics_log w'
       = (metrics_log w1
          ++ [mkMetrics (isoformat (clock w2)) task domain true
                        (List.length entries')])%list.
Proof.
  intros Hm Hc Hv Hvalid Ha Hd.
  destruct (save_pattern_stores yaml_entry py_repr isoformat domain q task w1
              entries Ha Hd)
    as (text & w2 & w3 & entries' & Hf & Hs & Hd3 & Hr & _ & _ & _ & Hh & Hl).
  assert (Hc2 : clock w3 = clock w2).
  { revert Hs. unfold save_pattern, bindM. rewrite Hf. unfold write_text.
    destruct (dirs w2 (patterns_dir domain)); intros [= <-]; reflexivity. }
  exists text, w2. unfold execute. rewrite (body_on_miss task w Hm).
  unfold bindM at 1. unfold create_validate_save. unfold bindM at 1.
  rewrite Hc. unfold bindM at 1. rewrite Hv. unfold bindM at 1.
  rewrite Hvalid. unfold ret at 1. unfold bindM at 1. rewrite Hs.
  unfold ret at 1. eexists; exists entries'.
  split; [exact Hf|]. split; [reflexivity|].
  cbn [dirs errors_log metrics_log tick]. unfold glob_md.
  cbn [dirs tick]. rewrite Hd3, Hc2. destruct Hl as [H1 H2].
  rewrite H1, H2. repeat split. exact Hr.
Qed.

(** A created pattern that is not valid is never saved: [execute] answers
    with the text of [handle_error] for a [ValueError] that lists the
    errors, and neither the store nor any metadata has changed since
    [create_pattern] returned. *)
Theorem execute_rejects_invalid (task : string) (w w1 : World)
        (q : PatternObj) (v : Validation) :
  is_miss (find_in_store domain task w) = true ->
  create_pattern task w = (Returned q, w1) ->
  validate_pattern (snapshot w1 q) = Returned v -> valid v = false ->
  exists w',
    run task w
    = handle_error isoformat domain
        (Exn ValueError ("Pattern validation failed: " ++ repr_strs (errors v)))
        task w1
    /\ snd (run task w) = w'
    /\ dirs w' = dirs w1 /\ heap w' = heap w1
    /\ metrics_log w' = metrics_log w1.
Proof.
  intros Hm Hc Hv Hvalid.
  assert (Hrun : run task w
                 = handle_error isoformat domain
                     (Exn ValueError ("Pattern validation failed: "
                                      ++ repr_strs (errors v))) task w1).
  { unfold execute. rewrite (body_on_miss task w Hm).
    unfold bindM at 1. unfold create_validate_save. unfold bindM at 1.
    rewrite Hc. unfold bindM at 1. rewrite Hv. unfold bindM at 1.
    rewrite Hvalid. reflexivity. }
  rewrite Hrun. eexists. split; [reflexivity|]. split; [reflexivity|].
  repeat split.
Qed.

(** The two concrete agents never write: whatever the task, the pattern
    store and the metadata are after [execute] as they were before. *)
Theorem concrete_agents_never_write (task : string) (w : World) :
  agent = FrontendUIAgent \/ agent = InfrastructureAgent ->
  dirs (snd (run task w)) = dirs w /\ heap (snd (run task w)) = heap w.
Proof.
  intros Ha.
  destruct (is_miss (find_in_store domain task w)) eqn:Hm.
  - assert (He : exists e, create_pattern task = raise e)
      by (destruct Ha as [-> | ->]; eexists; reflexivity).
    destruct He as [e He]. unfold execute.
    rewrite (body_miss_raises yaml_entry yaml_safe_load py_repr repr_strs
               isoformat task w Hm e He).
    split; reflexivity.
  - unfold is_miss in Hm.
    destruct (find_in_store domain task w) as [p|] eqn:Hf; [|discriminate].
    apply negb_false_iff in Hm.
    destruct (execute_hit task w p Hf Hm) as (w' & -> & Hh & Hd & _).
    split; assumption.
Qed.

End Execute.

(** ** Agents that create patterns, for running the creation path *)
Module Demo.

Definition new_dict : M nat :=
  fun w => let (a, w') := alloc_dict w in (Returned a, w').

(** An agent that writes a pattern from a fixed template. *)
Definition TemplateAgent : Agent := {|
  domain := "frontend";
  create_pattern task :=
    a <~ new_dict ;;
    _ <~ setitem a "task" (YStr task) ;;
    _ <~ setitem a "complexity" (YInt 1) ;;
    _ <~ setitem a "tags" (YSeq []) ;;
    _ <~ setitem a "dependencies" (YSeq []) ;;
    ret (mkPattern (Some a) (Some "A page.")
           (Some "export default function Page() { return <main>Page</main>; }")
           None None None None)
|}.

(** An agent whose pattern is a sketch: the code is too short. *)
Definition SketchAgent : Agent := {|
  domain := "frontend";
  create_pattern task :=
    a <~ new_dict ;;
    _ <~ setitem a "task" (YStr task) ;;
    ret (mkPattern (Some a) None (Some "export {};") None None None None)
|}.

(** The world after the sample pattern was saved in the frontend
    directory, and what [find_pattern] reads from its file. *)
Definition stored_world : World :=
  snd (save_pattern Sample.yaml_entry Sample.py_repr Sample.isoformat
         "frontend" Sample.homepage "Create Homepage" Sample.homepage_world).

Definition stored_pattern : Pattern :=
  match find_pattern Sample.yaml_safe_load "frontend" "create homepage"
                     stored_world with
  | Some p => p
  | None => empty_pattern
  end.

End Demo.

Lemma execute_hit_witness :
  exists w',
    execute Sample.yaml_entry Sample.yaml_safe_load Sample.py_repr
            Sample.repr_strs Sample.isoformat (agent := FrontendUIAgent)
            "Create Homepage" Demo.stored_world
    = (Returned "export const Home = 1;", w')
    /\ List.length (metrics_log w') = 1.
Proof.
  destruct (execute_hit Sample.yaml_entry Sample.yaml_safe_load Sample.py_repr
              Sample.repr_strs Sample.isoformat (agent := FrontendUIAgent)
              "Create Homepage" Demo.stored_world Demo.stored_pattern
              eq_refl eq_refl)
    as (w' & Hr & _ & _ & _ & _ & Hm).
  exists w'. split; [exact Hr|]. rewrite Hm. reflexivity.
Defined.

Lemma execute_creates_and_saves_witness :
  exists w' entries',
    execute Sample.yaml_entry Sample.yaml_safe_load Sample.py_repr
            Sample.repr_strs Sample.isoformat (agent := Demo.TemplateAgent)
            "Create Page" Sample.empty_world
    = (Returned "export default function Page() { return <main>Page</main>; }",
       w')
    /\ dirs w' ".ai/patterns/frontend" = Some entries'
    /\ read_entry "create-page.md" entries' <> None.
Proof.
  destruct (execute_creates_and_saves Sample.yaml_entry Sample.yaml_safe_load
              Sample.py_repr Sample.repr_strs Sample.isoformat
              (agent := Demo.TemplateAgent) "Create Page" Sample.empty_world
              (snd (create_pattern (Agent := Demo.TemplateAgent) "Create Page"
                                   Sample.empty_world))
              (mkPattern (Some 0) (Some "A page.")
                 (Some "export default function Page() { return <main>Page</main>; }")
                 None None None None)
              (mkValidation true [] []) []
              eq_refl eq_refl eq_refl eq_refl (le_n 1) eq_refl)
    as (text & w2 & w' & entries' & _ & Hr & Hd & Hread & _).
  exists w', entries'. split; [exact Hr|]. split; [exact Hd|].
  change (slug "Create Page") with "create-page.md" in Hread.
  rewrite Hread. discriminate.
Defined.

Lemma execute_rejects_invalid_witness :
  exists w',
    snd (execute Sample.yaml_entry Sample.yaml_safe_load Sample.py_repr
           Sample.repr_strs Sample.isoformat (agent := Demo.SketchAgent)
           "Create Page" Sample.empty_world) = w'
    /\ dirs w' ".ai/patterns/frontend" = Some []
    /\ metrics_log w' = [].
Proof.
  destruct (execute_rejects_invalid Sample.yaml_entry Sample.yaml_safe_load
              Sample.py_repr Sample.repr_strs Sample.isoformat
              (agent := Demo.SketchAgent) "Create Page" Sample.empty_world
              (snd (create_pattern (Agent := Demo.SketchAgent) "Create Page"
                                   Sample.empty_world))
              (mkPattern (Some 0) None (Some "export {};") None None None None)
              (mkValidation false
                 ["Missing required metadata: complexity";
                  "Missing required metadata: tags";
                  "Missing required metadata: dependencies";
                  "Pattern code too short"] [])
              eq_refl eq_refl eq_refl eq_refl)
    as (w' & _ & Hs & Hd & _ & Hm).
  exists w'. split; [exact Hs|]. split; [rewrite Hd; reflexivity|].
  rewrite Hm. reflexivity.
Defined.

Lemma concrete_agents_never_write_witness :
  dirs (snd (execute Sample.yaml_entry Sample.yaml_safe_load Sample.py_repr
               Sample.repr_strs Sample.isoformat (agent := InfrastructureAgent)
               "setup nextjs project" Sample.homepage_world))
  = dirs Sample.homepage_world.
Proof.
  apply (proj1 (concrete_agents_never_write Sample.yaml_entry
                  Sample.yaml_safe_load Sample.py_repr Sample.repr_strs
                  Sample.isoformat (agent := InfrastructureAgent)
                  "setup nextjs project" Sample.homepage_world
                  (or_intror eq_refl))).
Defined.

(** ** Trimmed sections *)

Lemma rstrip_idem (s : string) : Py.rstrip (Py.rstrip s) = Py.rstrip s.
Proof.
  induction s as [|c s IH]; [reflexivity|]. simpl.
  destruct (Py.rstrip s) as [|c' r] eqn:E.
  - destruct (Py.isspace c) eqn:Ec; [reflexivity|]. simpl. rewrite Ec.
    reflexivity.
  - simpl. simpl in IH. rewrite IH. reflexivity.
Qed.

Lemma lstrip_head (s : string) :
  Py.lstrip s = ""
  \/ exists c r, Py.lstrip s = String c r /\ Py.isspace c = false.
Proof.
  induction s as [|c s IH]; [left; reflexivity|]. simpl.
  destruct (Py.isspace c) eqn:E; [exact IH|].
  right. exists c, s. split; [reflexivity|exact E].
Qed.

Lemma strip_idem (s : string) : Py.strip (Py.strip s) = Py.strip s.
Proof.
  unfold Py.strip. destruct (lstrip_head s) as [->|(c & r & -> & Hc)];
    [reflexivity|].
  assert (H : Py.lstrip (Py.rstrip (String c r)) = Py.rstrip (String c r)).
  { simpl Py.rstrip. destruct (Py.rstrip r); rewrite ?Hc; simpl;
      rewrite Hc; reflexivity. }
  rewrite H. apply rstrip_idem.
Qed.

(** What [extract_section] returns has no blank at either end, so the
    [strip()] that [parse_pattern_file] applies to it changes nothing. *)
Theorem extract_section_is_trimmed (text start : string)
        (end_ : option string) :
  Py.strip (extract_section text start end_) = extract_section text start end_.
Proof.
  unfold extract_section. destruct (Py.find start text); [|reflexivity].
  destruct end_ as [[|c e]|]; try apply strip_idem.
  destruct (Py.find_from _ _ _); apply strip_idem.
Qed.

(** ** Serializing again *)

Lemma keys_dict_set k v m :
  keys (dict_set k v m)
  = if dict_has k m then keys m else (keys m ++ [k])%list.
Proof.
  unfold keys, dict_has. induction m as [|[k' v'] m IH]; simpl; [reflexivity|].
  destruct (String.eqb k k') eqn:E; simpl; [reflexivity|].
  rewrite IH. destruct (dict_get k m); reflexivity.
Qed.

Lemma dict_has_set k k' v m :
  dict_has k' (dict_set k v m) = String.eqb k' k || dict_has k' m.
Proof.
  unfold dict_has. destruct (String.eqb k' k) eqn:E.
  - apply String.eqb_eq in E. subst. rewrite dict_get_set_same. reflexivity.
  - rewrite dict_get_set_other by exact E. reflexivity.
Qed.

Lemma dict_has_in k m : dict_has k m = true <-> In k (keys m).
Proof.
  unfold dict_has, keys. induction m as [|[k' v'] m IH]; simpl.
  - split; [discriminate|intros []].
  - destruct (String.eqb k k') eqn:E.
    + apply String.eqb_eq in E. subst. split; auto.
    + rewrite IH. split; [auto|]. intros [H|H]; [|exact H].
      subst. rewrite String.eqb_refl in E. discriminate.
Qed.

Lemma dict_set_nodup k v m : NoDup (keys m) -> NoDup (keys (dict_set k v m)).
Proof.
  intros H. rewrite keys_dict_set. destruct (dict_has k m) eqn:E; [exact H|].
  apply NoDup_app; [exact H|repeat constructor; intros []|].
  intros x Hx [<-|[]]. apply dict_has_in in Hx. congruence.
Qed.

Lemma stamped_keys iso n m :
  dict_has "created" m = true -> dict_has "updated" m = true ->
  dict_has "version" m = true -> keys (stamped iso n m) = keys m.
Proof.
  intros H1 H2 H3. unfold stamped.
  rewrite !keys_dict_set, !dict_has_set, H1, H2, H3. reflexivity.
Qed.

Lemma stamped_has iso n m :
  dict_has "created" (stamped iso n m) = true
  /\ dict_has "updated" (stamped iso n m) = true
  /\ dict_has "version" (stamped iso n m) = true.
Proof.
  unfold dict_has.
  rewrite stamped_created, stamped_updated, stamped_version. repeat split.
Qed.

Section Reserialize.

Variable yaml_entry : string -> yaml -> string.
Variable py_repr : yaml -> string.
Variable isoformat : nat -> string.

Local Abbreviation format_md :=
  (format_pattern_markdown yaml_entry py_repr isoformat).

(** Serializing a pattern a second time keeps the keys of its metadata
    and their order, one entry per key, and the entries of the caller;
    but it stamps again: [created] is then the time of the second call,
    not that of the first. *)
Theorem reserialize_resets_created (p : PatternObj) (a : nat) (w : World) :
  metadata p = Some a -> a < List.length (heap w) ->
  NoDup (keys (deref a w)) ->
  exists t1 w1 t2 w2,
    format_md p w = (Returned t1, w1) /\ format_md p w1 = (Returned t2, w2)
    /\ keys (deref a w2) = keys (deref a w1)
    /\ NoDup (keys (deref a w2))
    /\ dict_get "created" (deref a w1) = Some (YStr (isoformat (clock w)))
    /\ dict_get "created" (deref a w2)
       = Some (YStr (isoformat (S (S (clock w)))))
    /\ (forall k, injected k = false ->
                  dict_get k (deref a w2) = dict_get k (deref a w)).
Proof.
  intros Hm Ha Hn.
  destruct (format_on_heap yaml_entry py_repr isoformat p a w Hm Ha)
    as (w1 & Hf1 & Hd1 & _ & Hc1 & _).
  assert (Ha1 : a < List.length (heap w1)).
  { revert Hf1. unfold format_pattern_markdown. rewrite Hm.
    unfold bindM, ret, now, setitem, store_item, tick. simpl.
    intros [= _ <-]. simpl. rewrite !length_heap_update. exact Ha. }
  destruct (format_on_heap yaml_entry py_repr isoformat p a w1 Hm Ha1)
    as (w2 & Hf2 & Hd2 & _).
  eexists; exists w1; eexists; exists w2.
  split; [exact Hf1|]. split; [exact Hf2|]. rewrite Hd2, Hd1, Hc1.
  destruct (stamped_has isoformat (clock w) (deref a w)) as (H1 & H2 & H3).
  split; [apply stamped_keys; assumption|].
  split; [unfold stamped; repeat apply dict_set_nodup; exact Hn|].
  split; [apply stamped_created|]. split; [apply stamped_created|].
  intros k Hk. rewrite !stamped_other by exact Hk. reflexivity.
Qed.

End Reserialize.

Lemma reserialize_resets_created_witness :
  exists t1 w1 t2 w2,
    format_pattern_markdown Sample.yaml_entry Sample.py_repr Sample.isoformat
                            Sample.homepage Sample.homepage_world
    = (Returned t1, w1)
    /\ format_pattern_markdown Sample.yaml_entry Sample.py_repr
                               Sample.isoformat Sample.homepage w1
       = (Returned t2, w2)
    /\ dict_get "created" (deref 0 w2)
       = Some (YStr "2024-05-01T10:00:00.000002").
Proof.
  destruct (reserialize_resets_created Sample.yaml_entry Sample.py_repr
              Sample.isoformat Sample.homepage 0 Sample.homepage_world
              eq_refl (le_n 1))
    as (t1 & w1 & t2 & w2 & H1 & H2 & _ & _ & _ & Hc & _).
  - repeat constructor; simpl; intuition discriminate.
  - exists t1, w1, t2, w2. split; [exact H1|]. split; [exact H2|exact Hc].
Defined.

(** ** The orchestrator's instructions and searches *)

(** [s.replace(c, '')] for a one-character [c]. *)
Fixpoint remove_char (c : ascii) (s : string) : string :=
  match s with
  | EmptyString => EmptyString
  | String x r =>
      if Ascii.eqb x c then remove_char c r else String x (remove_char c r)
  end.

(** The double quote, as a text. *)
Definition dq : string := String "034" EmptyString.

(** [Orchestrator.create_pattern]: the instructions for writing a pattern
    by hand.  [title] is [str.title] of the interpreter. *)
Definition orchestrator_create_pattern (title : string -> string)
           (task : string) : string :=
  let agent_name := determine_agent task in
  let dir_name := remove_char "_" agent_name in
  "
Pattern creation is a manual process to ensure philosophical alignment.

To create a pattern for: " ++ dq ++ task ++ dq ++ "

1. Create a new file in: .ai/patterns/" ++ dir_name ++ "/
2. Follow this structure:

---
task: " ++ task ++ "
complexity: 1-5
tags: [relevant, tags]
dependencies: [required, packages]
tech_stack: [technologies, used]
manual_steps: true/false
language: typescript/bash/python
---

# " ++ title task ++ "

## Description
What this pattern accomplishes

## Setup Instructions  
Prerequisites and environment setup

## Usage
How to use the generated code

## Notes
Additional context and considerations

## Code
```language
[Complete working code here]
```

3. Ensure the code is complete, tested, and follows philosophy
4. Save the file with a descriptive name
".



Lemma determine_agent_cases (task : string) :
  determine_agent task = "infrastructure"
  \/ determine_agent task = "frontend_ui".
Proof.
  unfold determine_agent, agent_keywords. cbn [first_agent].
  destruct (existsb _ _); [left; reflexivity|].
  destruct (existsb _ _); right; reflexivity.
Qed.

(** The instructions name a directory under [.ai/patterns]: for a task of
    the infrastructure agent it is the directory that agent reads, and for
    a task of the frontend agent it is [frontendui], which is not the
    directory [frontend] that agent reads. *)
Theorem creation_instructions_directory (title : string -> string)
        (task : string) :
  exists dir_name before after,
    orchestrator_create_pattern title task
    = before ++ "1. Create a new file in: .ai/patterns/" ++ dir_name ++ "/"
      ++ after
    /\ ((determine_agent task = "infrastructure"
         /\ dir_name = domain (Agent := InfrastructureAgent))
        \/ (determine_agent task = "frontend_ui"
            /\ dir_name = "frontendui"
            /\ dir_name <> domain (Agent := FrontendUIAgent))).
Proof.
  exists (remove_char "_" (determine_agent task)).
  exists ("
Pattern creation is a manual process to ensure philosophical alignment.

To create a pattern for: " ++ dq ++ task ++ dq ++ "

").
  eexists. split.
  - unfold orchestrator_create_pattern. cbv zeta.
    rewrite !append_assoc_s. reflexivity.
  - destruct (determine_agent_cases task) as [-> | ->].
    + left. split; reflexivity.
    + right. repeat split. discriminate.
Qed.





(** ** The server's tool [generate_from_pattern] *)

(** The mapping the tool returns: the one of the [try] block, or the one
    of the [except] clause. *)
Inductive GenerateResult : Type :=
| Generated (code domain_name message : string)
| Failed (error message suggestion : string).

Definition server_keywords : list string :=
  ["setup"; "install"; "deploy"; "config"; "nextjs"; "project"].

(** The agent the server picks: [self.agents['infrastructure']] or
    [self.agents['frontend']]. *)
Definition server_agent (task : string) : Agent :=
  let task_lower := Py.lower task in
  if existsb (fun keyword => Py.contains keyword task_lower) server_keywords
  then InfrastructureAgent else FrontendUIAgent.

Section Server.

Variable yaml_entry : string -> yaml -> string.
Variable yaml_safe_load : string -> outcome yaml.
Variable py_repr : yaml -> string.
Variable repr_strs : list string -> string.
Variable isoformat : nat -> string.

(** [PatternFrameworkServer.generate_from_pattern] *)
Definition server_generate_from_pattern (task : string) (w : World)
  : GenerateResult * World :=
  let agent := server_agent task in
  match execute yaml_entry yaml_safe_load py_repr repr_strs isoformat
                (agent := agent) task w with
  | (Returned result, w') =>
      (Generated result (domain (Agent := agent))
                 ("Generated code for: " ++ task), w')
  | (Raised e, w') =>
      (Failed (exn_str e) ("Failed to generate code: " ++ exn_str e)
              "Check if a pattern exists for this task or create one", w')
  end.

(** The tool reports success also when nothing was generated: on a miss
    the agent has turned the failure into a text, and that text comes
    back as the code, under [success]. *)
Theorem server_reports_success_on_miss (task : string) (w : World) :
  is_miss (find_pattern yaml_safe_load (domain (Agent := server_agent task))
                        task w) = true ->
  exists code w',
    server_generate_from_pattern task w
    = (Generated code (domain (Agent := server_agent task))
                 ("Generated code for: " ++ task), w')
    /\ Py.startswith "
## Error Encountered" code = true
    /\ metrics_log w' = metrics_log w.
Proof.
  intros Hm. unfold server_generate_from_pattern. cbv zeta.
  assert (He : exists e, create_pattern (Agent := server_agent task) task
                         = raise e).
  { unfold server_agent. destruct (existsb _ _); eexists; reflexivity. }
  destruct He as [e He]. unfold execute.
  rewrite (body_miss_raises yaml_entry yaml_safe_load py_repr repr_strs
             isoformat (agent := server_agent task) task w Hm e He).
  eexists; eexists. split; [reflexivity|]. split; reflexivity.
Qed.

End Server.

(** Whenever the server sends a task to the infrastructure agent, the
    orchestrator does too.  The converse fails: a task that mentions
    [build] or [next.js] and none of the server's keywords goes to the
    infrastructure agent with the orchestrator and to the frontend agent
    with the server. *)
Theorem server_and_orchestrator_routing (task : string) :
  (Py.contains "build" (Py.lower task) = true
   \/ Py.contains "next.js" (Py.lower task) = true) ->
  existsb (fun keyword => Py.contains keyword (Py.lower task)) server_keywords
  = false ->
  determine_agent task = "infrastructure"
  /\ domain (Agent := server_agent task) = "frontend".
Proof.
  intros Hb Hs. unfold server_agent. rewrite Hs. split; [|reflexivity].
  unfold determine_agent, agent_keywords. cbn [first_agent existsb].
  destruct Hb as [-> | ->]; rewrite ?orb_true_r; reflexivity.
Qed.

Theorem server_infrastructure_agrees (task : string) :
  domain (Agent := server_agent task) = "infrastructure" ->
  determine_agent task = "infrastructure".
Proof.
  unfold server_agent, server_keywords. cbn [existsb].
  unfold determine_agent, agent_keywords. cbn [first_agent existsb].
  rewrite !orb_false_r.
  destruct (Py.contains "setup" _); [reflexivity|].
  destruct (Py.contains "install" _); [reflexivity|].
  destruct (Py.contains "deploy" _); [reflexivity|].
  destruct (Py.contains "config" _); [reflexivity|].
  destruct (Py.contains "nextjs" _);
    [simpl; rewrite ?orb_true_r; reflexivity|].
  destruct (Py.contains "project" _);
    [simpl; rewrite ?orb_true_r; reflexivity|].
  simpl. discriminate.
Qed.

Lemma server_reports_success_on_miss_witness :
  exists code w',
    server_generate_from_pattern Sample.yaml_entry Sample.yaml_safe_load
                          Sample.py_repr Sample.repr_strs Sample.isoformat
                          "create homepage" Sample.empty_world
    = (Generated code "frontend" "Generated code for: create homepage", w')
    /\ Py.startswith "
## Error Encountered" code = true.
Proof.
  destruct (server_reports_success_on_miss Sample.yaml_entry
              Sample.yaml_safe_load Sample.py_repr Sample.repr_strs
              Sample.isoformat "create homepage" Sample.empty_world eq_refl)
    as (code & w' & Hg & Hs & _).
  exists code, w'. split; [exact Hg|exact Hs].
Defined.

Lemma server_and_orchestrator_routing_witness :
  determine_agent "Build the page" = "infrastructure"
  /\ domain (Agent := server_agent "Build the page") = "frontend".
Proof.
  apply (server_and_orchestrator_routing "Build the page"
           (or_introl eq_refl) eq_refl).
Defined.

Lemma server_infrastructure_agrees_witness :
  determine_agent "Deploy the site" = "infrastructure".
Proof.
  apply (server_infrastructure_agrees "Deploy the site" eq_refl).
Defined.

(** ** Constructing an agent *)

(** [path.mkdir(exist_ok=True)] on a directory whose parent exists. *)
Definition mkdir_exist_ok (path : string) : M unit :=
  fun w =>
    (Returned tt,
     match dirs w path with
     | Some _ => w
     | None => set_dirs (fun d => if String.eqb d path then Some []
                                  else dirs w d) w
     end).

(** [PatternFirstAgent.__init__] for a domain name without a slash: the
    text of [.ai/philosophy.md] is read, then the directory of the domain
    is made, with [.ai/patterns] above it.  The value is
    [self.philosophy]. *)
Definition init_agent (domain_name : string) : M string :=
  fun w =>
    match match dirs w ".ai" with
          | Some entries => read_entry "philosophy.md" entries
          | None => None
          end with
    | None =>
        (Raised (Exn FileNotFoundError
                     "[Errno 2] No such file or directory: '.ai/philosophy.md'"),
         w)
    | Some stored =>
        (let philosophy := read_text stored in
         _ <~ mkdir_exist_ok ".ai/patterns" ;;
         _ <~ mkdir_exist_ok (patterns_dir domain_name) ;;
         ret philosophy) w
    end.

(** After an agent is constructed, the directory of its domain exists
    with the files it had, if any, so that [find_pattern] passes its
    guard; the metadata and the logs are untouched.  When the philosophy
    file is missing the construction raises before any directory is
    made. *)
Theorem agent_construction (domain_name : string) (w : World) :
  match dirs w ".ai" with
  | Some entries => read_entry "philosophy.md" entries
  | None => None
  end <> None ->
  exists philosophy w',
    init_agent domain_name w = (Returned philosophy, w')
    /\ dirs w' (patterns_dir domain_name) = Some (glob_md domain_name w)
    /\ glob_md domain_name w' = glob_md domain_name w
    /\ heap w' = heap w /\ same_logs w w'
    /\ forall yaml_safe_load task,
         find_pattern yaml_safe_load domain_name task w'
         = find_pattern_in task
             (parse_all yaml_safe_load (glob_md domain_name w)).
Proof.
  intros Hp. unfold init_agent.
  destruct (match dirs w ".ai" with
            | Some entries => read_entry "philosophy.md" entries
            | None => None
            end) as [stored|]; [|congruence].
  cbv zeta. set (philosophy := read_text stored).
  assert (Hne : String.eqb (patterns_dir domain_name) ".ai/patterns" = false).
  { apply String.eqb_neq. unfold patterns_dir. simpl. discriminate. }
  set (w' := snd ((_ <~ mkdir_exist_ok ".ai/patterns" ;;
                   _ <~ mkdir_exist_ok (patterns_dir domain_name) ;;
                   ret philosophy) w)).
  exists philosophy, w'. split; [reflexivity|].
  assert (Hd : dirs w' (patterns_dir domain_name)
               = Some (glob_md domain_name w)).
  { unfold w', bindM, mkdir_exist_ok, ret, glob_md. simpl.
    destruct (dirs w ".ai/patterns") eqn:E1; simpl.
    - destruct (dirs w (patterns_dir domain_name)) eqn:E2; simpl.
      + exact E2.
      + rewrite String.eqb_refl. reflexivity.
    - rewrite ?Hne.
      destruct (dirs w (patterns_dir domain_name)) eqn:E2; simpl.
      + rewrite ?Hne. exact E2.
      + rewrite String.eqb_refl. reflexivity. }
  split; [exact Hd|].
  split; [unfold glob_md at 1; rewrite Hd; reflexivity|].
  split; [|split].
  - unfold w', bindM, mkdir_exist_ok, ret. simpl.
    destruct (dirs w ".ai/patterns"); simpl;
      match goal with |- context [match ?x with Some _ => _ | None => _ end] =>
        destruct x end; reflexivity.
  - unfold w', bindM, mkdir_exist_ok, ret. simpl.
    destruct (dirs w ".ai/patterns"); simpl;
      match goal with |- context [match ?x with Some _ => _ | None => _ end] =>
        destruct x end; split; reflexivity.
  - intros ysl task. unfold find_pattern. rewrite Hd. reflexivity.
Qed.

Theorem agent_construction_needs_philosophy (domain_name : string)
        (w : World) :
  match dirs w ".ai" with
  | Some entries => read_entry "philosophy.md" entries
  | None => None
  end = None ->
  exists e,
    init_agent domain_name w = (Raised e, w)
    /\ exn_kind e = FileNotFoundError.
Proof.
  intros Hp. unfold init_agent. rewrite Hp. eexists. split; reflexivity.
Qed.

Lemma agent_construction_witness :
  let w := mkWorld [] (fun d => if String.eqb d ".ai"
                                then Some [("philosophy.md", "Patterns first.")]
                                else None) [] [] 0 in
  exists w',
    init_agent "frontend" w = (Returned "Patterns first.", w')
    /\ dirs w' ".ai/patterns/frontend" = Some [].
Proof.
  intros w.
  destruct (agent_construction "frontend" w) as (ph & w' & Hi & Hd & _).
  - discriminate.
  - exists w'. split; [|exact Hd].
    rewrite Hi. f_equal. f_equal.
    assert (H : fst (init_agent "frontend" w) = Returned "Patterns first.")
      by reflexivity.
    rewrite Hi in H. injection H as ->. reflexivity.
Defined.

Lemma agent_construction_needs_philosophy_witness :
  exists e,
    init_agent "frontend" Sample.empty_world = (Raised e, Sample.empty_world)
    /\ exn_kind e = FileNotFoundError.
Proof.
  apply (agent_construction_needs_philosophy "frontend" Sample.empty_world
                                             eq_refl).
Defined.
